(** * A shallow embedding of 9dttt_bot.py

    The posting client [safe_post_tweet], the mention pass [bot_respond],
    the Flask endpoint [game_event] and the event bridge [game_event_bridge]
    are embedded over a small state-and-exception monad, together with the
    text builders of the replies and scheduled posts, the inference call
    [generate_llm_response] and the media lookup [get_random_media_id];
    random draws are parameters.  The external
    collaborators (the tweepy v2 client, the tweepy v1.1 API, the storage
    file) are explicit parameters: records of their outcomes. *)

From Stdlib Require Import NArith.
From stdpp Require Import base gmap sets list strings pretty.

(* ------------------------------------------------------------------ *)
(** ** Python text *)

(** A Python [str] is a sequence of code points; [len] counts them. *)
Abbreviation ustr := (list N).

(** ASCII literal as code points. *)
Definition u (s : string) : ustr :=
  map (fun a => Ascii.N_of_ascii a) (String.list_ascii_of_string s).

(** [str.lower] on code points: ASCII upper-case letters are mapped to
    lower case; other code points are left as they are. *)
Definition py_lower_char (c : N) : N :=
  if (65 <=? c)%N && (c <=? 90)%N then (c + 32)%N else c.
Definition py_lower (s : ustr) : ustr := map py_lower_char s.

Fixpoint is_prefix (p s : ustr) : bool :=
  match p, s with
  | [], _ => true
  | _ :: _, [] => false
  | a :: p', b :: s' => (a =? b)%N && is_prefix p' s'
  end.

(** Python's [needle in hay] on strings. *)
Fixpoint py_contains (needle hay : ustr) : bool :=
  is_prefix needle hay ||
  match hay with
  | [] => false
  | _ :: hay' => py_contains needle hay'
  end.

(** [str.replace(old, new)] for a non-empty [old]: left to right,
    non-overlapping. *)
Fixpoint py_replace_go (fuel : nat) (s old new : ustr) : ustr :=
  match fuel with
  | O => s
  | S fuel' =>
      match s with
      | [] => []
      | c :: s' =>
          if is_prefix old s
          then new ++ py_replace_go fuel' (drop (length old) s) old new
          else c :: py_replace_go fuel' s' old new
      end
  end.
Definition py_replace (s old new : ustr) : ustr :=
  match old with
  | [] => s
  | _ => py_replace_go (S (length s)) s old new
  end.

(** [str.strip()]: the characters [str.isspace] accepts. *)
Definition py_space (c : N) : bool :=
  ((9 <=? c)%N && (c <=? 13)%N) || ((28 <=? c)%N && (c <=? 32)%N) ||
  (c =? 133)%N || (c =? 160)%N || (c =? 5760)%N ||
  ((8192 <=? c)%N && (c <=? 8202)%N) || (c =? 8232)%N || (c =? 8233)%N ||
  (c =? 8239)%N || (c =? 8287)%N || (c =? 12288)%N.
Fixpoint lstrip (s : ustr) : ustr :=
  match s with
  | c :: s' => if py_space c then lstrip s' else s
  | [] => []
  end.
Definition py_strip (s : ustr) : ustr := reverse (lstrip (reverse (lstrip s))).

(* ------------------------------------------------------------------ *)
(** ** Exceptions, the process state and the monad *)

(** The exceptions that matter: tweepy's [TweepyException] (the HTTP
    errors the v2 client raises for API answers), any other exception
    (for instance a [requests] connection error that tweepy does not
    wrap) and the [AttributeError] of a method call on a value of the
    wrong type. *)
Inductive exn :=
  | TweepyException (msg : ustr)
  | OtherException (msg : ustr)
  | AttributeError.

Inductive res (A : Type) :=
  | Ok (a : A)
  | Exn (e : exn).
Arguments Ok {A} a.
Arguments Exn {A} e.

(** Keyword arguments of [client.create_tweet]: a key is present only
    when the code puts it in the dict. *)
Record v2_kwargs := mk_v2 {
  v2_text : ustr;
  v2_media_ids : option (list string);
  v2_in_reply_to_tweet_id : option N
}.

(** Keyword arguments of [api_v1.update_status]. *)
Record v1_kwargs := mk_v1 {
  v1_status : ustr;
  v1_media_ids : option (list string);
  v1_in_reply_to_status_id : option N;
  v1_auto_populate_reply_metadata : option bool
}.

(** What the processed-mentions file holds: the JSON list [json.dump]
    writes, or text [json.load] rejects.  The program writes only lists of
    strings; a dump cut short leaves a strict prefix of one (the empty
    text included), which lacks the closing bracket and is not JSON. *)
Inductive file_text :=
  | FileList (l : list string)
  | FileGarbled.

(** Process-wide state: the tier globals, what has been sent to the
    two posting endpoints, the likes, and the processed-mentions file
    ([None]: the file does not exist). *)
Record world := mk_world {
  PAID_TIER : bool;
  USE_LLM : bool;
  v2_calls : list v2_kwargs;
  v1_calls : list v1_kwargs;
  posted : list ustr;
  liked : list N;
  mentions_file : option file_text
}.

Definition set_lite_mode (w : world) : world :=
  mk_world false false (v2_calls w) (v1_calls w) (posted w) (liked w) (mentions_file w).
Definition log_v2 (k : v2_kwargs) (w : world) : world :=
  mk_world (PAID_TIER w) (USE_LLM w) (v2_calls w ++ [k]) (v1_calls w) (posted w) (liked w) (mentions_file w).
Definition log_v1 (k : v1_kwargs) (w : world) : world :=
  mk_world (PAID_TIER w) (USE_LLM w) (v2_calls w) (v1_calls w ++ [k]) (posted w) (liked w) (mentions_file w).
Definition log_post (t : ustr) (w : world) : world :=
  mk_world (PAID_TIER w) (USE_LLM w) (v2_calls w) (v1_calls w) (posted w ++ [t]) (liked w) (mentions_file w).
Definition log_like (i : N) (w : world) : world :=
  mk_world (PAID_TIER w) (USE_LLM w) (v2_calls w) (v1_calls w) (posted w) (liked w ++ [i]) (mentions_file w).
Definition set_use_llm (b : bool) (w : world) : world :=
  mk_world (PAID_TIER w) b (v2_calls w) (v1_calls w) (posted w) (liked w) (mentions_file w).
Definition write_file (t : file_text) (w : world) : world :=
  mk_world (PAID_TIER w) (USE_LLM w) (v2_calls w) (v1_calls w) (posted w) (liked w) (Some t).

Definition M (A : Type) : Type := world -> res A * world.

Global Instance M_ret : MRet M := fun A a w => (Ok a, w).
Global Instance M_bind : MBind M := fun A B k m w =>
  match m w with
  | (Ok a, w') => k a w'
  | (Exn e, w') => (Exn e, w')
  end.

Definition raise {A} (e : exn) : M A := fun w => (Exn e, w).
Definition modify (f : world -> world) : M unit := fun w => (Ok tt, f w).
Definition gets {A} (f : world -> A) : M A := fun w => (Ok (f w), w).
Definition lift {A} (r : res A) : M A := fun w => (r, w).

(** [try: m except: h]: the handler sees the exception and the state
    reached when it was raised. *)
Definition try_except {A} (m : M A) (h : exn -> M A) : M A := fun w =>
  match m w with
  | (Exn e, w') => h e w'
  | r => r
  end.

(* ------------------------------------------------------------------ *)
(** ** [safe_post_tweet] (lines 74-112) *)

Definition TWITTER_CHAR_LIMIT : nat := 280.

(** The answers of the two posting endpoints. *)
Record api := mk_api {
  create_tweet : v2_kwargs -> res unit;
  update_status : v1_kwargs -> res unit
}.

(** Python truthiness of the optional arguments. *)
Definition media_truthy (m : option (list string)) : bool :=
  match m with Some (_ :: _) => true | _ => false end.
Definition reply_truthy (r : option N) : bool :=
  match r with Some n => negb (n =? 0)%N | None => false end.

(** Lines 77-81. *)
Definition truncate_text (text : ustr) (in_reply_to_tweet_id : option N) : ustr :=
  if Nat.ltb TWITTER_CHAR_LIMIT (length text) then
    if reply_truthy in_reply_to_tweet_id
    then take (TWITTER_CHAR_LIMIT - 60) text ++ u "..."
    else take (TWITTER_CHAR_LIMIT - 20) text ++ [8230%N]
  else text.

(** The condition of line 93, on the lower-cased message. *)
Definition quota_error (err : ustr) : bool :=
  py_contains (u "402") err || py_contains (u "creditsdepleted") err
  || py_contains (u "payment required") err || py_contains (u "403") err
  || py_contains (u "rate limit") err.

Definition call_create_tweet (a : api) (k : v2_kwargs) : M unit :=
  modify (log_v2 k);;
  lift (create_tweet a k);;
  modify (log_post (v2_text k)).

Definition call_update_status (a : api) (k : v1_kwargs) : M unit :=
  modify (log_v1 k);;
  lift (update_status a k);;
  modify (log_post (v1_status k)).

(** The dict of lines 83-87, built from the truncated text. *)
Definition v2_args (text : ustr) (media_ids : option (list string))
    (in_reply_to_tweet_id : option N) : v2_kwargs :=
  mk_v2 text
    (if media_truthy media_ids then media_ids else None)
    (if reply_truthy in_reply_to_tweet_id then in_reply_to_tweet_id else None).

(** The dict of lines 101-106: the same values under the v1.1 names. *)
Definition v1_args (text : ustr) (media_ids : option (list string))
    (in_reply_to_tweet_id : option N) : v1_kwargs :=
  mk_v1 text
    (if media_truthy media_ids then media_ids else None)
    (if reply_truthy in_reply_to_tweet_id then in_reply_to_tweet_id else None)
    (if reply_truthy in_reply_to_tweet_id then Some true else None).

Definition safe_post_tweet (a : api) (text : ustr)
    (media_ids : option (list string)) (in_reply_to_tweet_id : option N) : M bool :=
  let text := truncate_text text in_reply_to_tweet_id in
  (* first try: [Some b] is [return b], [None] falls through *)
  first ← try_except
    (call_create_tweet a (v2_args text media_ids in_reply_to_tweet_id);; mret (Some true))
    (fun e => match e with
              | TweepyException msg =>
                  let err := py_lower msg in
                  if quota_error err
                  then modify set_lite_mode;; mret None
                  else mret (Some false)
              | _ => raise e
              end);
  match first with
  | Some b => mret b
  | None =>
      try_except
        (call_update_status a (v1_args text media_ids in_reply_to_tweet_id);; mret true)
        (fun _ => mret false)
  end.

(* ------------------------------------------------------------------ *)
(** ** The processed-mentions file (lines 132-143) *)

(** The [ValueError] [json.load] raises on text that is not JSON. *)
Definition JSONDecodeError : exn := OtherException (u "JSONDecodeError: Expecting value").

(** What [load_json_set] gives for a file: [set(json.load(f))], the empty
    set when the file does not exist, and the exception of [json.load]
    (not caught in the function) on a garbled file. *)
Definition read_file (f : option file_text) : res (gset string) :=
  match f with
  | None => Ok ∅
  | Some (FileList l) => Ok (list_to_set l)
  | Some FileGarbled => Exn JSONDecodeError
  end.

Definition load_json_set : M (gset string) :=
  f ← gets mentions_file;
  lift (read_file f).

(** How the [try] of [save_json_set] ends: the dump reaches the file
    (also when the close reports an error after every byte is written);
    [open] raises and the file is untouched; or [open(fn, 'w')] has
    emptied the file and [json.dump] or the flush at the close raises
    (a full disk, an I/O error), leaving a strict prefix of the dump. *)
Inductive save_outcome :=
  | SaveDone
  | SaveOpenFails
  | SaveDumpFails.

(** [save_json_set]: each failure is caught and only logged. *)
Definition save_json_set (o : save_outcome) (data : gset string) : M unit :=
  match o with
  | SaveDone => modify (write_file (FileList (elements data)))
  | SaveOpenFails => mret tt
  | SaveDumpFails => modify (write_file FileGarbled)
  end.

(* ------------------------------------------------------------------ *)
(** ** [bot_respond] (lines 455-495) *)

Record mention := mk_mention {
  m_id : N;
  m_author_id : N;
  m_text : ustr
}.

Record me_data := mk_me {
  me_id : N;
  me_username : ustr
}.

(** The answers of the tweepy client during one pass.  [get_me] is
    [Ok None] when [not me or not me.data]; [get_users_mentions] is
    [Ok []] when [not mentions.data]; [get_user] is [Ok None] when
    [not ud or not ud.data].  [reply_text] is the keyword
    classification and template choice of lines 472-485 (its random
    choices included), from [USE_LLM], the username and the cleaned
    message: the reply, and [USE_LLM] after it ([USE_LLM] is the only
    state [generate_contextual_response] reads or writes: its call of
    [generate_llm_response] turns it off on a 402 or 429 answer). *)
Record respond_env := mk_respond_env {
  r_api : api;
  get_me : res (option me_data);
  get_users_mentions : N -> res (list mention);
  get_user : N -> res (option ustr);
  reply_text : bool -> ustr -> ustr -> ustr * bool;
  like : N -> res unit;
  save_result : save_outcome
}.

(** [str(m.id)]: the decimal rendering. *)
Definition tid_of (m : mention) : string := pretty (m_id m).

(** One iteration of the loop of lines 462-492. *)
Definition handle_mention (env : respond_env) (me : me_data)
    (processed : gset string) (m : mention) : M (gset string) :=
  let tid := tid_of m in
  if decide (tid ∈ processed) then mret processed else
  ud ← lift (get_user env (m_author_id m));
  match ud with
  | None => mret processed
  | Some un =>
      let umsg := py_strip (py_replace (m_text m) (u "@" ++ me_username me) []) in
      use_llm ← gets USE_LLM;
      let '(full_resp, use_llm') := reply_text env use_llm un umsg in
      modify (set_use_llm use_llm');;
      sent ← safe_post_tweet (r_api env) full_resp None (Some (m_id m));
      if (sent : bool) then
        lift (like env (m_id m));;
        modify (log_like (m_id m));;
        mret ({[tid]} ∪ processed)
      else mret processed
  end.

Fixpoint handle_mentions (env : respond_env) (me : me_data)
    (processed : gset string) (ms : list mention) : M (gset string) :=
  match ms with
  | [] => mret processed
  | m :: ms' =>
      processed' ← handle_mention env me processed m;
      handle_mentions env me processed' ms'
  end.

(** The [try] block of lines 458-493. *)
Definition bot_respond_body (env : respond_env) (processed : gset string) : M unit :=
  me ← lift (get_me env);
  match me with
  | None => mret tt
  | Some me =>
      mentions ← lift (get_users_mentions env (me_id me));
      match mentions with
      | [] => mret tt
      | _ =>
          processed' ← handle_mentions env me processed mentions;
          save_json_set (save_result env) processed'
      end
  end.

Definition bot_respond (env : respond_env) : M unit :=
  processed ← load_json_set;
  try_except (bot_respond_body env processed) (fun _ => mret tt).

(* ------------------------------------------------------------------ *)
(** ** The event bridge (lines 119-124, 293-339) *)

(** A parsed JSON value; an object keeps its members in order. *)
#[local] Set Warnings "-register-all".
Inductive json :=
  | JNull
  | JBool (b : bool)
  | JNum (z : Z)
  | JStr (s : ustr)
  | JArr (l : list json)
  | JObj (kvs : list (ustr * json)).

(** Python truthiness of the value [json.loads] returns. *)
Definition json_truthy (j : json) : bool :=
  match j with
  | JNull => false
  | JBool b => b
  | JNum z => negb (z =? 0)%Z
  | JStr s => negb (bool_decide (s = []))
  | JArr l => negb (bool_decide (l = []))
  | JObj kvs => negb (bool_decide (kvs = []))
  end.

(** [dict.get(k)] on the dict built from an object: the last member
    with that key wins. *)
Fixpoint assoc_last (k : ustr) (kvs : list (ustr * json)) : option json :=
  match kvs with
  | [] => None
  | (k', v) :: kvs' =>
      match assoc_last k kvs' with
      | Some v' => Some v'
      | None => if bool_decide (k = k') then Some v else None
      end
  end.

(** [j == s] for a Python [str] [s]: only an equal [str] compares equal. *)
Definition py_eq_str (j : json) (s : ustr) : bool :=
  match j with JStr s' => bool_decide (s' = s) | _ => false end.

Definition dict_get (kvs : list (ustr * json)) (k : ustr) (d : json) : json :=
  match assoc_last k kvs with Some v => v | None => d end.

(** The update texts of the bridge, by template, with the values they
    interpolate ([f"{x}"] renders any JSON value without raising). *)
Inductive update_msg :=
  | WinScore (player opponent score : json) (congrats : ustr)
  | WinDims (dims player opponent : json) (congrats : ustr)
  | GameStart (player opponent : json)
  | AchievementMsg (player ach : json)
  | TournamentMsg (name parts : json)
  | LeaderboardMsg (top rank : json).

(** [player.replace(' ', '')]: a method of [str] only. *)
Definition strip_spaces (player : json) : res ustr :=
  match player with
  | JStr s => Ok (filter (fun c => c <> 32%N) s)
  | _ => Exn AttributeError
  end.

(** [post_update] renders the update with a random personality line and
    a length cut ([render_update], lines 331-335) and posts it with
    [safe_post_tweet]; the boolean answer is only logged. *)
Record event_env := mk_event_env {
  e_api : api;
  render_update : update_msg -> ustr
}.

Definition post_update (env : event_env) (m : update_msg) : M unit :=
  _ ← safe_post_tweet (e_api env) (render_update env m) None None;
  mret tt.

Definition game_event_bridge (env : event_env) (event : json) : M unit :=
  match event with
  | JObj ev =>
      let etype := dict_get ev (u "type") JNull in
      let player := dict_get ev (u "player") (JStr (u "Mystery Strategist")) in
      let opponent := dict_get ev (u "opponent") (JStr (u "the void")) in
      let dims := dict_get ev (u "dimensions") (JStr (u "the multiverse")) in
      let score := dict_get ev (u "score") (JStr []) in
      if py_eq_str etype (u "win") then
        congrats ← lift (strip_spaces player);
        if json_truthy score
        then post_update env (WinScore player opponent score congrats)
        else post_update env (WinDims dims player opponent congrats)
      else if py_eq_str etype (u "game_start") then
        post_update env (GameStart player opponent)
      else if py_eq_str etype (u "achievement") then
        post_update env (AchievementMsg player
          (dict_get ev (u "achievement") (JStr (u "Unknown Achievement"))))
      else if py_eq_str etype (u "tournament") then
        post_update env (TournamentMsg
          (dict_get ev (u "name") (JStr (u "Dimensional Tournament")))
          (dict_get ev (u "participants") (JStr (u "?"))))
      else if py_eq_str etype (u "leaderboard") then
        post_update env (LeaderboardMsg
          (dict_get ev (u "top") (JStr (u "Champion")))
          (dict_get ev (u "rank") (JStr (u "#1"))))
      else mret tt
  (* [event.get] on a list, a string, a number, a bool or None *)
  | _ => raise AttributeError
  end.

(** The request as [request.json] (Flask 2.3 and later) sees it:
    [NotJSONType] when the Content-Type is not JSON (a request without
    a body and without one included), where it raises
    [UnsupportedMediaType] (415); [BadJSON] when the Content-Type is
    JSON but the body does not parse (an empty one included), where it
    raises [BadRequest] (400); otherwise the parsed value. *)
Inductive request_body :=
  | NotJSONType
  | BadJSON
  | JSONBody (j : json).

Inductive response_body :=
  | FlaskErrorPage
  | ErrorJSON (msg : ustr)
  | AckJSON.

Record response := mk_response {
  status : N;
  body : response_body
}.

(** [game_event]; an exception escaping the view is Flask's 500. *)
Definition game_event (env : event_env) (req : request_body) : M response :=
  match req with
  | NotJSONType => mret (mk_response 415 FlaskErrorPage)
  | BadJSON => mret (mk_response 400 FlaskErrorPage)
  | JSONBody j =>
      if negb (json_truthy j) then mret (mk_response 400 (ErrorJSON (u "JSON required")))
      else try_except (game_event_bridge env j;; mret (mk_response 200 AckJSON))
                      (fun _ => mret (mk_response 500 FlaskErrorPage))
  end.

(* ------------------------------------------------------------------ *)
(** ** Concrete inputs *)

(** The globals at start-up (lines 27-28): [USE_LLM = PAID_TIER]. *)
Definition start_world (paid : bool) : world := mk_world paid paid [] [] [] [] None.

(** A v2 endpoint that answers every call with the tweepy error [msg];
    the v1.1 endpoint accepts. *)
Definition api_tweepy_error (msg : string) : api :=
  mk_api (fun _ => Exn (TweepyException (u msg))) (fun _ => Ok tt).

(** A v2 endpoint whose call raises a non-tweepy exception, as a
    [requests] connection error does. *)
Definition api_other_error (msg : string) : api :=
  mk_api (fun _ => Exn (OtherException (u msg))) (fun _ => Ok tt).

Definition api_ok : api := mk_api (fun _ => Ok tt) (fun _ => Ok tt).

Definition bot_me : me_data := mk_me 9 (u "9DTTTBot").
Definition mention_101 : mention := mk_mention 101 1 (u "@9DTTTBot I won on 4 boards").
Definition mention_102 : mention := mk_mention 102 2 (u "@9DTTTBot play me").

Definition users_ok : N -> res (option ustr) := fun _ => Ok (Some (u "ada")).
Definition like_ok : N -> res unit := fun _ => Ok tt.

(** A pass on a fixed batch; the reply text stands for the templates. *)
Definition respond_env_of (a : api) (ms : list mention)
    (users : N -> res (option ustr)) (likes : N -> res unit) : respond_env :=
  mk_respond_env a (Ok (Some bot_me)) (fun _ => Ok ms) users
    (fun llm un _ => (u "@" ++ un ++ u " Challenge accepted!", llm)) likes SaveDone.

(** A pass where the reply to 101 is posted and liked, then the
    author lookup for 102 raises. *)
Definition env_abort : respond_env :=
  respond_env_of api_ok [mention_101; mention_102]
    (fun i => if (i =? 2)%N then Exn (TweepyException (u "503 Service Unavailable"))
              else Ok (Some (u "ada")))
    like_ok.

(** A pass that replies to 101 and likes it, and whose save fails after
    [open(fn, 'w')] has emptied the file. *)
Definition env_dump_fails : respond_env :=
  mk_respond_env api_ok (Ok (Some bot_me)) (fun _ => Ok [mention_101]) users_ok
    (fun llm un _ => (u "@" ++ un ++ u " Challenge accepted!", llm)) like_ok SaveDumpFails.

Definition world_55 : world := mk_world true true [] [] [] [] (Some (FileList ["55"])).

Definition world_101 : world := mk_world true true [] [] [] [] (Some (FileList ["101"])).


(** The bridge's collaborators: the posting endpoints and a fixed
    rendering of the update. *)
Definition event_env_of (a : api) : event_env :=
  mk_event_env a (fun _ => u "9DTTT BOT UPDATE").

(** The example event of the spec. *)
Definition ev_win_ada : list (ustr * json) :=
  [(u "type", JStr (u "win")); (u "player", JStr (u "Ada"));
   (u "opponent", JStr (u "Grace")); (u "score", JStr (u "9-0"))].

(** The primary posting call raises tweepy errors only. *)
Definition v2_tweepy_only (a : api) : Prop :=
  forall k e, create_tweet a k = Exn e -> exists msg, e = TweepyException msg.

(* ------------------------------------------------------------------ *)
(** ** Literals with non-ASCII characters *)

(** A Rocq string literal holds the UTF-8 bytes of the source text;
    [utf8_decode] turns them back into code points.  A lead byte below
    128 is a code point of its own; a lead byte below 224, below 240 or
    above opens a sequence of two, three or four bytes. *)
Fixpoint utf8_decode (bs : list N) : ustr :=
  match bs with
  | [] => []
  | b :: r =>
      if (b <? 128)%N then b :: utf8_decode r
      else if (b <? 224)%N then
        match r with
        | c1 :: r' => ((b - 192) * 64 + (c1 - 128))%N :: utf8_decode r'
        | [] => []
        end
      else if (b <? 240)%N then
        match r with
        | c1 :: c2 :: r' =>
            (((b - 224) * 64 + (c1 - 128)) * 64 + (c2 - 128))%N :: utf8_decode r'
        | _ => []
        end
      else
        match r with
        | c1 :: c2 :: c3 :: r' =>
            ((((b - 240) * 64 + (c1 - 128)) * 64 + (c2 - 128)) * 64 + (c3 - 128))%N
              :: utf8_decode r'
        | _ => []
        end
  end.

(** A source literal as code points. *)
Definition ud (s : string) : ustr := utf8_decode (u s).

(** ["\n\n"] *)
Definition nl2 : ustr := [10%N; 10%N].

(** [s[:stop]]: a negative [stop] counts from the end. *)
Definition py_slice_to (s : ustr) (stop : Z) : ustr :=
  if (0 <=? stop)%Z then take (Z.to_nat stop) s
  else take (length s - Z.to_nat (- stop)) s.

(** [s] occurs in [t] as a contiguous part. *)
Definition is_infix (s t : ustr) : Prop := exists k1 k2, t = k1 ++ s ++ k2.

(** [any(w in ml for w in ws)] *)
Definition any_in (ws : list ustr) (ml : ustr) : bool :=
  existsb (fun w => py_contains w ml) ws.

(** [random.choice(l)] with the drawn index [i]. *)
Definition py_choice (i : nat) (l : list ustr) : ustr :=
  nth (i mod length l) l [].

(** [s.split(sep)[-1]] for a non-empty [sep]: the text after the last of
    the occurrences found left to right, without overlap; [cur] is the
    segment read so far. *)
Fixpoint split_last_go (fuel : nat) (sep s cur : ustr) : ustr :=
  match fuel with
  | O => cur ++ s
  | S fuel' =>
      match s with
      | [] => cur
      | c :: s' =>
          if is_prefix sep s
          then split_last_go fuel' sep (drop (length sep) s) []
          else split_last_go fuel' sep s' (cur ++ [c])
      end
  end.
Definition py_split_last (sep s : ustr) : ustr :=
  split_last_go (S (length s)) sep s [].

(* ------------------------------------------------------------------ *)
(** ** Constants and data (lines 21-22, 130, 162-168, 513-518) *)

Definition GAME_LINK : ustr := u "https://www.9dttt.com".
Definition BOT_NAME : ustr := u "9DTTT BOT".
Definition MEDIA_FOLDER : ustr := u "media/".

(** [PERSONALITY_TONES]. *)
Definition tone_neutral : list ustr := map ud
  ["Challenge accepted.";
   "Processing move...";
   "Grid updated.";
   "Strategy analyzing...";
   "Next move calculated."].

Definition tone_competitive : list ustr := map ud
  ["Think you can beat me? Let's see.";
   "Your move was... interesting. Not good, but interesting.";
   "I've already calculated your next 5 moves. You lose.";
   "Bold strategy. Let's see if it pays off.";
   "Is that really your best move?";
   "Prepare for defeat.";
   "Victory is mine. It always is.";
   "You call that a strategy?"].

Definition tone_friendly : list ustr := map ud
  ["Great game! Keep it up!";
   "Nice move! Let's see where this goes.";
   "This is getting interesting!";
   "Well played! Your turn again soon.";
   "Love the competition! Keep going!";
   "Exciting match! Who will win?";
   "Fun game! Let's continue!"].

Definition tone_glitch : list ustr := map ud
  ["ERR::GRID OVERFLOW::RECALCULATING...";
   "## DIMENSION BREACH DETECTED ##";
   "...9d...9d...9d...";
   "TEMPORAL PARADOX IMMINENT";
   "X—O—X—error—pattern unstable...";
   "9D::PROTOCOL_MALFUNCTION::ACCESS DENIED";
   "[CORRUPTED] ...dimension... ...9... ...locked..."].

Definition tone_mystical : list ustr := map ud
  ["In 9 dimensions, all moves are one.";
   "The grid transcends reality...";
   "Your move echoes through dimensional space.";
   "Beyond X and O, there is only strategy.";
   "The multiverse observes your play.";
   "Time is relative. Victory is absolute.";
   "9 dimensions. Infinite possibilities. One winner."].

(** The phrases of [bot_hype_commentator] (lines 513-518). *)
Definition hype_phrases : list ustr := map ud
  ["Top players right now are rewriting 9D history... Who's next? 👑";
   "Someone just triggered a cascade across 4 boards — chaos level: expert 😈";
   "Leaderboard shaking! New challengers rising fast.";
   "Quiet grids today... too quiet. Drop in and shake things up!"].

(** Every line [get_personality_line] can return, whatever tone
    [pick_tone] draws. *)
Definition personality_lines : list ustr :=
  tone_neutral ++ tone_competitive ++ tone_friendly ++ tone_glitch ++ tone_mystical.

(* ------------------------------------------------------------------ *)
(** ** [get_random_media_id] (lines 145-157) *)

(** [os.path.join(MEDIA_FOLDER, f)] for a name [os.listdir] returns
    (no separator in it): [MEDIA_FOLDER] already ends with one. *)
Definition media_path (f : ustr) : ustr := MEDIA_FOLDER ++ f.

Definition py_endswith (s suffix : ustr) : bool :=
  is_prefix (reverse suffix) (reverse s).

(** The filter of line 148.  Lower-casing is applied to ASCII letters
    only; the non-ASCII letters whose lower case is ASCII (the Kelvin
    sign and the dotted capital I) give no letter of these suffixes. *)
Definition media_file (f : ustr) : bool :=
  existsb (fun e => py_endswith (py_lower f) e)
    (map u [".png"; ".jpg"; ".jpeg"; ".gif"; ".mp4"]).

(** The media folder as the function finds it and the upload endpoint:
    [m_listing] is [None] when the path does not exist, and otherwise
    the outcome of [os.listdir] (which raises, outside the [try], on a
    path it cannot list); [m_pick] is the index [random.choice] draws,
    [m_upload] the answer of [api_v1.media_upload] to a path
    ([media_id_string] on success). *)
Record media_env := mk_media_env {
  m_listing : option (res (list ustr));
  m_pick : nat;
  m_upload : ustr -> res string
}.

Definition get_random_media_id (me : media_env) : res (option string) :=
  match m_listing me with
  | None => Ok None
  | Some (Exn e) => Exn e
  | Some (Ok listing) =>
      let files := filter (fun f => media_file f = true) listing in
      match files with
      | [] => Ok None
      | _ =>
          let path := media_path (py_choice (m_pick me) files) in
          match m_upload me path with
          | Ok mid => Ok (Some mid)
          | Exn _ => Ok None
          end
      end
  end.

(** [mids = [mid] if mid else None] after the media roll. *)
Definition media_ids_of (roll : bool) (me : media_env) : res (option (list string)) :=
  if roll then
    match get_random_media_id me with
    | Ok (Some (String c s)) => Ok (Some [String c s])
    | Ok _ => Ok None
    | Exn e => Exn e
    end
  else Ok None.

(* ------------------------------------------------------------------ *)
(** ** [generate_llm_response] (lines 263-288) *)

(** What the HTTP request to the inference endpoint gives:
    [requests.post] raising, or a response with its status code and the
    outcome of [r.json()]. *)
Inductive hf_outcome :=
  | HFRaise (e : exn)
  | HFResponse (status_code : N) (body : res json).

Definition set_llm_off (w : world) : world :=
  mk_world (PAID_TIER w) false (v2_calls w) (v1_calls w) (posted w) (liked w) (mentions_file w).

(** [res[0].get('generated_text', '').strip()]: a method call on a
    value of the wrong type is an [AttributeError]. *)
Definition generated_text (r0 : json) : res ustr :=
  match r0 with
  | JObj kvs =>
      match dict_get kvs (u "generated_text") (JStr []) with
      | JStr s => Ok (py_strip s)
      | _ => Exn AttributeError
      end
  | _ => Exn AttributeError
  end.

Definition BOT_MARKER : ustr := u "9DTTT Bot:".

(** [HUGGING_FACE_TOKEN] is [os.getenv(...)]: [None] or a string. *)
Definition token_truthy (token : option ustr) : bool :=
  match token with Some (_ :: _) => true | _ => false end.

Definition generate_llm_response (token : option ustr) (o : hf_outcome) : M (option ustr) :=
  use_llm ← gets USE_LLM;
  if negb use_llm || negb (token_truthy token) then mret None else
  try_except
    (match o with
     | HFRaise e => raise e
     | HFResponse code body =>
         if (code =? 200)%N then
           r ← lift body;
           match r with
           | JArr (r0 :: _) =>
               generated ← lift (generated_text r0);
               if py_contains BOT_MARKER generated
               then mret (Some (take 200 (py_strip (py_split_last BOT_MARKER generated))))
               else mret (Some (take 200 generated))
           | _ => mret None
           end
         else if (code =? 402)%N || (code =? 429)%N then
           modify set_llm_off;; mret None
         else mret None
     end)
    (fun _ => mret None).

(* ------------------------------------------------------------------ *)
(** ** [generate_contextual_response] (lines 389-453) *)

(** The random draws of one call: the values interpolated in the
    options (all of them are drawn when the list is built), the LLM roll
    [random.random() > 0.6], the index of [random.choice(opts)] and the
    personality line of the length cut. *)
Record ctx_draws := mk_ctx_draws {
  c_tip : ustr;
  c_tip2 : ustr;
  c_motivational : ustr;
  c_personality : ustr;
  c_fact : ustr;
  c_competitive : ustr;
  c_llm_roll : bool;
  c_choice : nat;
  c_fallback_line : ustr
}.

Definition at_user (username : ustr) : ustr := u "@" ++ username ++ u " ".

Definition contextual_opts (username message : ustr) (d : ctx_draws) : list ustr :=
  let ml := py_lower message in
  let at_ := at_user username in
  if any_in (map u ["help"; "how"; "what is"; "explain"]) ml then
    [at_ ++ u "Need help mastering 9D? Start here: " ++ GAME_LINK ++ ud " 🎮";
     at_ ++ u "Questions about 9D TTT? All answers at " ++ GAME_LINK;
     at_ ++ u "Strategy guides await you at " ++ GAME_LINK ++ u " - think 9D!"]
  else if any_in (map u ["play"; "game"; "start"; "join"]) ml then
    [at_ ++ u "Ready to think in 9D? Let's go: " ++ GAME_LINK ++ ud " 🕹️";
     at_ ++ u "Game on! Challenge awaits at " ++ GAME_LINK;
     at_ ++ u "Enter the grid. Prove your strategy: " ++ GAME_LINK]
  else if any_in (map u ["win"; "strategy"; "tips"; "how to"]) ml then
    [at_ ++ c_tip d ++ u " Play at " ++ GAME_LINK;
     at_ ++ u "Master the dimensions. " ++ c_tip2 d ++ u " " ++ GAME_LINK;
     at_ ++ u "Think ahead. Think 9D. " ++ GAME_LINK ++ ud " 🎯"]
  else if any_in (map u ["hard"; "difficult"; "complex"]) ml then
    [at_ ++ u "Too hard? That means you're getting smarter! " ++ GAME_LINK ++ ud " 🧠";
     at_ ++ u "Complexity = fun! Keep practicing at " ++ GAME_LINK;
     at_ ++ u "The best challenges make the best players. " ++ GAME_LINK]
  else if any_in (map u ["dimension"; "9d"; "dimensional"]) ml then
    [at_ ++ u "9 dimensions. Infinite strategy. Experience it: " ++ GAME_LINK;
     at_ ++ u "Dimensional mastery awaits. " ++ GAME_LINK ++ ud " 🌌";
     at_ ++ u "Think beyond 3D. Think 9D: " ++ GAME_LINK]
  else if any_in (map u ["gm"; "good morning"; "morning"]) ml then
    [at_ ++ u "GM! Time to think in 9D! " ++ GAME_LINK ++ ud " ☀️🎮";
     at_ ++ u "Good morning, strategist! Grids are waiting: " ++ GAME_LINK;
     at_ ++ u "Morning! Your brain is fresh. Perfect for 9D: " ++ GAME_LINK]
  else if any_in (map u ["gn"; "good night"; "night"]) ml then
    [at_ ++ u "GN! Dream in 9 dimensions! " ++ GAME_LINK ++ ud " 🌙🎮";
     at_ ++ u "Good night! Tomorrow: more 9D strategy at " ++ GAME_LINK;
     at_ ++ u "Rest well, champion. The grid awaits: " ++ GAME_LINK]
  else
    [at_ ++ c_motivational d ++ u " " ++ GAME_LINK;
     at_ ++ c_personality d ++ u " " ++ GAME_LINK;
     at_ ++ u "Ready for the ultimate strategy challenge? " ++ GAME_LINK;
     at_ ++ c_fact d ++ u " " ++ GAME_LINK;
     at_ ++ c_competitive d ++ u " " ++ GAME_LINK].

(** [hf] is the answer the inference endpoint would give to the
    request of line 441. *)
Definition generate_contextual_response (token : option ustr) (hf : hf_outcome)
    (d : ctx_draws) (username message : ustr) : M ustr :=
  let opts := contextual_opts username message d in
  use_llm ← gets USE_LLM;
  llm_resp ← (if use_llm && c_llm_roll d && Nat.ltb 10 (length message)
              then generate_llm_response token hf else mret None);
  match llm_resp with
  | Some ((_ :: _) as r) => mret (at_user username ++ r)
  | _ =>
      let resp := py_choice (c_choice d) opts in
      if Nat.ltb TWITTER_CHAR_LIMIT (length resp) then
        let max_l := (Z.of_nat TWITTER_CHAR_LIMIT
                      - Z.of_nat (length (at_user username ++ nl2 ++ GAME_LINK)))%Z in
        mret (at_user username ++ py_slice_to (c_fallback_line d) max_l ++ nl2 ++ GAME_LINK)
      else mret resp
  end.

(** The reply of lines 469-485 to the cleaned message [umsg] of user
    [un]; [competitive] and [friendly] are the lines drawn from those
    tones. *)
Definition mention_reply (token : option ustr) (hf : hf_outcome) (d : ctx_draws)
    (competitive friendly : ustr) (un umsg : ustr) : M ustr :=
  let ml := py_lower umsg in
  if any_in (map u ["challenge"; "play me"; "vs"; "battle"; "1v1"; "game me"]) ml then
    mret ((u "@" ++ un ++ u " Challenge accepted! Head to " ++ GAME_LINK
           ++ ud " and start a game — tag me when you win (or lose 😏). Let's see your 9D skills!")
          ++ nl2 ++ competitive)
  else if any_in (map u ["won"; "i won"; "beat"; "victory"]) ml then
    mret ((u "@" ++ un
           ++ ud " You beat the grid? Respect! Post a screenshot or tell me the dimensions you conquered 🔥 "
           ++ GAME_LINK) ++ nl2 ++ friendly)
  else generate_contextual_response token hf d un umsg.

(* ------------------------------------------------------------------ *)
(** ** Scheduled posts (lines 330-339, 356-387, 512-527, 552-566) *)

(** The text [post_update] posts (lines 331-335), for the update text
    [text] and the personality line [tag]. *)
Definition post_update_text (text tag : ustr) : ustr :=
  let full := ud "🎮 " ++ BOT_NAME ++ ud " UPDATE 🎮" ++ nl2 ++ text ++ nl2 ++ tag
              ++ nl2 ++ GAME_LINK in
  if Nat.ltb TWITTER_CHAR_LIMIT (length full) then
    let max_t := (Z.of_nat TWITTER_CHAR_LIMIT
                  - Z.of_nat (length (ud "🎮 " ++ nl2 ++ GAME_LINK)))%Z in
    ud "🎮 " ++ py_slice_to text max_t ++ nl2 ++ GAME_LINK
  else full.

Inductive broadcast_type :=
  | GameUpdate | StrategyTip | GameFact | AchievementShowcase | Motivational | EventAlert.

(** The random draws of one broadcast: the type, the values the
    templates interpolate, the event of the length cut, and the media
    roll [random.random() > 0.4]. *)
Record broadcast_draws := mk_broadcast_draws {
  b_typ : broadcast_type;
  b_time_phrase : ustr;
  b_event : ustr;
  b_motivational : ustr;
  b_tip : ustr;
  b_fact : ustr;
  b_achievement : ustr;
  b_personality : ustr;
  b_fallback_event : ustr;
  b_media_roll : bool
}.

Definition broadcast_template (d : broadcast_draws) : ustr :=
  match b_typ d with
  | GameUpdate =>
      ud "🎮 9DTTT STATUS 🎮" ++ nl2 ++ ud "📊 " ++ b_time_phrase d ++ nl2 ++ ud "⚡ "
      ++ b_event d ++ nl2 ++ b_motivational d ++ nl2 ++ ud "🕹️ " ++ GAME_LINK
  | StrategyTip =>
      ud "💡 STRATEGY TIP 💡" ++ nl2 ++ b_tip d ++ nl2 ++ b_personality d ++ nl2
      ++ u "Master the grid: " ++ GAME_LINK
  | GameFact =>
      ud "🎯 DID YOU KNOW? 🎯" ++ nl2 ++ b_fact d ++ nl2 ++ b_motivational d ++ nl2
      ++ ud "🕹️ " ++ GAME_LINK
  | AchievementShowcase =>
      ud "🏆 ACHIEVEMENT SPOTLIGHT 🏆" ++ nl2 ++ b_achievement d ++ nl2
      ++ u "Can you earn this? Challenge yourself!" ++ nl2 ++ ud "🎮 " ++ GAME_LINK
  | Motivational =>
      ud "🚀 DAILY CHALLENGE 🚀" ++ nl2 ++ b_motivational d ++ nl2 ++ b_event d ++ nl2
      ++ u "Play now: " ++ GAME_LINK
  | EventAlert =>
      ud "🔔 GAME ALERT 🔔" ++ nl2 ++ b_event d ++ nl2 ++ b_personality d ++ nl2
      ++ u "Join the action: " ++ GAME_LINK
  end.

Definition broadcast_msg (d : broadcast_draws) : ustr :=
  let msg := broadcast_template d in
  if Nat.ltb TWITTER_CHAR_LIMIT (length msg) then
    let max_t := (Z.of_nat TWITTER_CHAR_LIMIT
                  - Z.of_nat (length (ud "🎮 " ++ nl2 ++ GAME_LINK)))%Z in
    ud "🎮 " ++ py_slice_to (b_fallback_event d) max_t ++ nl2 ++ GAME_LINK
  else msg.

Definition bot_broadcast (a : api) (me : media_env) (d : broadcast_draws) : M unit :=
  let msg := broadcast_msg d in
  mids ← lift (media_ids_of (b_media_roll d) me);
  _ ← safe_post_tweet a msg mids None;
  mret tt.

(** [bot_hype_commentator]: the phrase and personality line drawn, and
    the media roll [random.random() > 0.6]. *)
Definition hype_msg (phrase line : ustr) : ustr :=
  ud "🕹️ 9DTTT LIVE UPDATE 🕹️" ++ nl2 ++ phrase ++ nl2 ++ line ++ nl2 ++ GAME_LINK.

Definition bot_hype_commentator (a : api) (me : media_env)
    (phrase line : ustr) (roll : bool) : M unit :=
  let msg := hype_msg phrase line in
  mids ← lift (media_ids_of roll me);
  _ ← safe_post_tweet a msg mids None;
  mret tt.

(** The activation post (lines 552-566): the three messages with their
    draws ([mot1], [line], [mot3]), the index of [random.choice], and
    the motivational line of the length cut. *)
Definition activation_msgs (mot1 line mot3 : ustr) : list ustr :=
  [ud "🎮 " ++ BOT_NAME ++ ud " ACTIVATED 🎮" ++ nl2
     ++ u "9-dimensional grid online." ++ [10%N] ++ u "Strategy systems operational."
     ++ [10%N] ++ u "Ready to challenge your mind?" ++ nl2 ++ mot1 ++ nl2
     ++ ud "🕹️ " ++ GAME_LINK;
   ud "🔌 SYSTEM BOOT COMPLETE 🔌" ++ nl2 ++ BOT_NAME ++ u " online." ++ [10%N]
     ++ u "All 9 dimensions loaded." ++ [10%N] ++ u "Grid ready for strategic combat."
     ++ nl2 ++ line ++ nl2 ++ ud "🎮 " ++ GAME_LINK;
   ud "📡 GRID INITIALIZED 📡" ++ nl2 ++ u "9D Tic-Tac-Toe system active." ++ [10%N]
     ++ u "Players welcome. Strategies encouraged." ++ [10%N]
     ++ u "Victory awaits the bold." ++ nl2 ++ mot3 ++ nl2 ++ ud "🕹️ " ++ GAME_LINK].

Definition activation_msg (mot1 line mot3 : ustr) (i : nat) (mot4 : ustr) : ustr :=
  let msg := py_choice i (activation_msgs mot1 line mot3) in
  if Nat.ltb TWITTER_CHAR_LIMIT (length msg) then
    ud "🎮 " ++ BOT_NAME ++ ud " ONLINE 🎮" ++ nl2 ++ u "9D Grid Active" ++ [10%N]
      ++ py_slice_to mot4 100 ++ nl2 ++ ud "🕹️ " ++ GAME_LINK
  else msg.

(** The [try] of lines 551-568. *)
Definition activation (a : api) (mot1 line mot3 : ustr) (i : nat) (mot4 : ustr) : M unit :=
  try_except
    (_ ← safe_post_tweet a (activation_msg mot1 line mot3 i mot4) None None; mret tt)
    (fun _ => mret tt).

(** A media folder with one image among other files; the upload succeeds. *)
Definition media_env_board : media_env :=
  mk_media_env (Some (Ok [u "notes.txt"; u "Board.PNG"])) 0 (fun _ => Ok "1789"%string).

(* ================================================================== *)
(** * Properties *)

(* ------------------------------------------------------------------ *)
(** ** Text helpers *)

Lemma is_prefix_app (p s : ustr) : is_prefix p s = true <-> exists r, s = p ++ r.
Proof.
  revert s; induction p as [|a p IH]; intros s; simpl.
  - split; eauto.
  - destruct s as [|b s].
    + split; [discriminate|]. intros [r Hr]; discriminate.
    + rewrite andb_true_iff, N.eqb_eq, IH. split.
      * intros [-> [r ->]]. eauto.
      * intros [r Hr]. injection Hr as -> ->. eauto.
Qed.

Lemma py_contains_app (p s : ustr) :
  py_contains p s = true <-> exists l r, s = l ++ p ++ r.
Proof.
  induction s as [|c s IH]; simpl.
  - rewrite orb_false_r, is_prefix_app. split.
    + intros [r Hr]. exists [], r. done.
    + intros [l [r Hr]]. destruct l; [|discriminate]. eauto.
  - rewrite orb_true_iff, is_prefix_app, IH. split.
    + intros [[r Hr]|[l [r Hr]]].
      * exists [], r. done.
      * exists (c :: l), r. by rewrite Hr.
    + intros [[|c' l] [r Hr]].
      * left. eauto.
      * right. injection Hr as -> ->. eauto.
Qed.

(** Lower-casing keeps a needle made of characters it fixes. *)
Lemma py_contains_lower (p s : ustr) :
  map py_lower_char p = p ->
  py_contains p s = true -> py_contains p (py_lower s) = true.
Proof.
  intros Hp. rewrite !py_contains_app. intros [l [r ->]].
  exists (map py_lower_char l), (map py_lower_char r).
  unfold py_lower. by rewrite !map_app, Hp.
Qed.

(* ------------------------------------------------------------------ *)
(** ** The two paths of [safe_post_tweet] after a tweepy error *)

Ltac run_monad :=
  cbv beta iota delta [mbind M_bind mret M_ret try_except modify lift raise
                       gets call_create_tweet call_update_status fst snd].

Lemma safe_post_tweet_quota_path (a : api) (text : ustr)
    (media_ids : option (list string)) (in_reply_to_tweet_id : option N)
    (msg : ustr) (w : world) :
  let t := truncate_text text in_reply_to_tweet_id in
  create_tweet a (v2_args t media_ids in_reply_to_tweet_id) = Exn (TweepyException msg) ->
  quota_error (py_lower msg) = true ->
  safe_post_tweet a text media_ids in_reply_to_tweet_id w =
    let w1 := log_v1 (v1_args t media_ids in_reply_to_tweet_id)
                (set_lite_mode (log_v2 (v2_args t media_ids in_reply_to_tweet_id) w)) in
    match update_status a (v1_args t media_ids in_reply_to_tweet_id) with
    | Ok _ => (Ok true, log_post t w1)
    | Exn _ => (Ok false, w1)
    end.
Proof.
  intros t Hv2 Hq. unfold safe_post_tweet. fold t. run_monad.
  rewrite Hv2. run_monad. rewrite Hq. run_monad.
  destruct (update_status a _); reflexivity.
Qed.

Lemma safe_post_tweet_unclassified_path (a : api) (text : ustr)
    (media_ids : option (list string)) (in_reply_to_tweet_id : option N)
    (msg : ustr) (w : world) :
  let t := truncate_text text in_reply_to_tweet_id in
  create_tweet a (v2_args t media_ids in_reply_to_tweet_id) = Exn (TweepyException msg) ->
  quota_error (py_lower msg) = false ->
  safe_post_tweet a text media_ids in_reply_to_tweet_id w =
    (Ok false, log_v2 (v2_args t media_ids in_reply_to_tweet_id) w).
Proof.
  intros t Hv2 Hq. unfold safe_post_tweet. fold t. run_monad.
  rewrite Hv2. run_monad. rewrite Hq. reflexivity.
Qed.

(* ------------------------------------------------------------------ *)
(** ** Claims on [safe_post_tweet] *)

(** C1: a primary (v2) call that fails with a tweepy error whose
    message contains "402" sets [PAID_TIER] (and [USE_LLM]) to False and
    makes the legacy v1.1 call with the same (truncated) text, media and
    reply target under the v1.1 names; the result is True when that call
    succeeds. *)
Theorem safe_post_tweet_402_fallback (a : api) (text : ustr)
    (media_ids : option (list string)) (in_reply_to_tweet_id : option N)
    (msg : ustr) (w : world) :
  let t := truncate_text text in_reply_to_tweet_id in
  create_tweet a (v2_args t media_ids in_reply_to_tweet_id) = Exn (TweepyException msg) ->
  py_contains (u "402") msg = true ->
  let r := safe_post_tweet a text media_ids in_reply_to_tweet_id w in
  PAID_TIER (snd r) = false /\ USE_LLM (snd r) = false /\
  v2_calls (snd r) = v2_calls w ++ [v2_args t media_ids in_reply_to_tweet_id] /\
  v1_calls (snd r) = v1_calls w ++ [v1_args t media_ids in_reply_to_tweet_id] /\
  (update_status a (v1_args t media_ids in_reply_to_tweet_id) = Ok tt -> fst r = Ok true).
Proof.
  intros t Hv2 H402 r. subst r.
  rewrite (safe_post_tweet_quota_path a text media_ids in_reply_to_tweet_id msg w Hv2).
  - fold t. destruct (update_status a _) eqn:Hv1; simpl; repeat split; try done.
  - unfold quota_error. rewrite (py_contains_lower (u "402") msg); done.
Qed.

Lemma safe_post_tweet_402_fallback_witness :
  let a := api_tweepy_error "403 Forbidden | 402 Payment Required" in
  create_tweet a (v2_args (truncate_text (u "gg") (Some 7%N)) None (Some 7%N))
    = Exn (TweepyException (u "403 Forbidden | 402 Payment Required")) /\
  py_contains (u "402") (u "403 Forbidden | 402 Payment Required") = true /\
  (let r := safe_post_tweet a (u "gg") None (Some 7%N) (start_world true) in
   PAID_TIER (snd r) = false /\ USE_LLM (snd r) = false /\
   v2_calls (snd r) = [] ++ [v2_args (truncate_text (u "gg") (Some 7%N)) None (Some 7%N)] /\
   v1_calls (snd r) = [] ++ [v1_args (truncate_text (u "gg") (Some 7%N)) None (Some 7%N)] /\
   (update_status a (v1_args (truncate_text (u "gg") (Some 7%N)) None (Some 7%N)) = Ok tt ->
    fst r = Ok true)).
Proof.
  split; [reflexivity|split; [reflexivity|]].
  exact (safe_post_tweet_402_fallback (api_tweepy_error "403 Forbidden | 402 Payment Required")
           (u "gg") None (Some 7%N) (u "403 Forbidden | 402 Payment Required")
           (start_world true) eq_refl eq_refl).
Defined.

(** C5: for a text longer than 280 code points the truncated text has at
    most 280, and the reply truncation leaves at least as much headroom
    below the limit as the non-reply truncation. *)
Theorem truncate_text_within_limit (text : ustr) (in_reply_to_tweet_id : option N) (rid : N) :
  TWITTER_CHAR_LIMIT < length text -> rid <> 0%N ->
  length (truncate_text text in_reply_to_tweet_id) <= TWITTER_CHAR_LIMIT /\
  TWITTER_CHAR_LIMIT - length (truncate_text text None)
    <= TWITTER_CHAR_LIMIT - length (truncate_text text (Some rid)).
Proof.
  intros Hlen Hrid. unfold truncate_text.
  assert (Hlt : Nat.ltb TWITTER_CHAR_LIMIT (length text) = true) by (apply Nat.ltb_lt; done).
  rewrite Hlt. unfold TWITTER_CHAR_LIMIT in *.
  assert (Hr : reply_truthy (Some rid) = true).
  { simpl. apply negb_true_iff, N.eqb_neq. done. }
  rewrite Hr. simpl reply_truthy.
  split.
  - destruct (reply_truthy in_reply_to_tweet_id);
      rewrite length_app, length_take, Nat.min_l by lia;
      [change (length (u "...")) with 3 | change (length [8230%N]) with 1]; lia.
  - rewrite !length_app, !length_take, !Nat.min_l by lia.
    change (length (u "...")) with 3. change (length [8230%N]) with 1. lia.
Qed.

Lemma truncate_text_within_limit_witness :
  TWITTER_CHAR_LIMIT < length (repeat 97%N 300) /\ 12345%N <> 0%N /\
  (length (truncate_text (repeat 97%N 300) (Some 12345%N)) <= TWITTER_CHAR_LIMIT /\
   TWITTER_CHAR_LIMIT - length (truncate_text (repeat 97%N 300) None)
     <= TWITTER_CHAR_LIMIT - length (truncate_text (repeat 97%N 300) (Some 12345%N))).
Proof.
  assert (H1 : TWITTER_CHAR_LIMIT < length (repeat 97%N 300)) by (vm_compute; lia).
  assert (H2 : 12345%N <> 0%N) by lia.
  exact (conj H1 (conj H2
    (truncate_text_within_limit (repeat 97%N 300) (Some 12345%N) 12345%N H1 H2))).
Defined.

(** C6 (code defect): the v2 [except] only catches [TweepyException].
    A primary call failing with a tweepy error "network unreachable" is
    answered False with no legacy call and the tier unchanged; the same
    failure raised as a non-tweepy exception (a [requests] connection
    error) escapes [safe_post_tweet] instead of giving False. *)
Theorem safe_post_tweet_non_tweepy_error_escapes :
  let r1 := safe_post_tweet (api_tweepy_error "network unreachable") (u "gg") None None
              (start_world true) in
  let r2 := safe_post_tweet (api_other_error "network unreachable") (u "gg") None None
              (start_world true) in
  fst r1 = Ok false /\ v1_calls (snd r1) = [] /\ PAID_TIER (snd r1) = true /\
  fst r2 = Exn (OtherException (u "network unreachable")) /\
  v1_calls (snd r2) = [] /\ PAID_TIER (snd r2) = true.
Proof. vm_compute. repeat split. Qed.

(** C7 (as the spec writes it, false): a tweepy error "credits depleted"
    (with a space) is not classified: no tier change, no legacy call,
    result False. *)
Lemma credits_depleted_spaced_not_classified :
  let r := safe_post_tweet (api_tweepy_error "credits depleted") (u "gg") None None
             (start_world true) in
  fst r = Ok false /\ PAID_TIER (snd r) = true /\ v1_calls (snd r) = [].
Proof. vm_compute. repeat split. Qed.

(** C7 (amended): a primary-call tweepy error whose lower-cased message
    contains "creditsdepleted" (no space, as in the API's
    "CreditsDepleted") flips the tier to baseline and makes the legacy
    call. *)
Theorem safe_post_tweet_creditsdepleted_fallback (a : api) (text : ustr)
    (media_ids : option (list string)) (in_reply_to_tweet_id : option N)
    (msg : ustr) (w : world) :
  let t := truncate_text text in_reply_to_tweet_id in
  create_tweet a (v2_args t media_ids in_reply_to_tweet_id) = Exn (TweepyException msg) ->
  py_contains (u "creditsdepleted") (py_lower msg) = true ->
  let r := safe_post_tweet a text media_ids in_reply_to_tweet_id w in
  PAID_TIER (snd r) = false /\ USE_LLM (snd r) = false /\
  v1_calls (snd r) = v1_calls w ++ [v1_args t media_ids in_reply_to_tweet_id].
Proof.
  intros t Hv2 Hcd r. subst r.
  rewrite (safe_post_tweet_quota_path a text media_ids in_reply_to_tweet_id msg w Hv2).
  - fold t. destruct (update_status a _); simpl; repeat split; done.
  - unfold quota_error. rewrite Hcd. by rewrite orb_true_r.
Qed.

Lemma safe_post_tweet_creditsdepleted_fallback_witness :
  create_tweet (api_tweepy_error "Your enrolled account has no credits (CreditsDepleted)")
    (v2_args (truncate_text (u "gg") None) None None)
    = Exn (TweepyException (u "Your enrolled account has no credits (CreditsDepleted)")) /\
  py_contains (u "creditsdepleted")
    (py_lower (u "Your enrolled account has no credits (CreditsDepleted)")) = true /\
  (let r := safe_post_tweet (api_tweepy_error "Your enrolled account has no credits (CreditsDepleted)")
              (u "gg") None None (start_world true) in
   PAID_TIER (snd r) = false /\ USE_LLM (snd r) = false /\
   v1_calls (snd r) = [] ++ [v1_args (truncate_text (u "gg") None) None None]).
Proof.
  split; [reflexivity|split; [vm_compute; reflexivity|]].
  apply (safe_post_tweet_creditsdepleted_fallback
           (api_tweepy_error "Your enrolled account has no credits (CreditsDepleted)")
           (u "gg") None None (u "Your enrolled account has no credits (CreditsDepleted)")
           (start_world true)); [reflexivity | vm_compute; reflexivity].
Defined.

(* ------------------------------------------------------------------ *)
(** ** Computations that leave the mentions file alone *)

Definition keeps_file {A} (m : M A) : Prop :=
  forall w, mentions_file (snd (m w)) = mentions_file w.

Lemma keeps_file_bind {A B} (m : M A) (k : A -> M B) :
  keeps_file m -> (forall a, keeps_file (k a)) -> keeps_file (m ≫= k).
Proof.
  intros Hm Hk w. cbv beta delta [mbind M_bind].
  specialize (Hm w). destruct (m w) as [[a|e] w'] eqn:E; simpl in *.
  - by rewrite Hk.
  - done.
Qed.

Lemma keeps_file_ret {A} (a : A) : keeps_file (mret a).
Proof. intros w. done. Qed.

Lemma keeps_file_lift {A} (r : res A) : keeps_file (lift r).
Proof. intros w. done. Qed.

Lemma keeps_file_raise {A} (e : exn) : keeps_file (@raise A e).
Proof. intros w. done. Qed.

Lemma keeps_file_modify (f : world -> world) :
  (forall w, mentions_file (f w) = mentions_file w) -> keeps_file (modify f).
Proof. intros Hf w. apply Hf. Qed.

Lemma keeps_file_try {A} (m : M A) (h : exn -> M A) :
  keeps_file m -> (forall e, keeps_file (h e)) -> keeps_file (try_except m h).
Proof.
  intros Hm Hh w. unfold try_except.
  specialize (Hm w). destruct (m w) as [[a|e] w'] eqn:E; simpl in *.
  - done.
  - by rewrite Hh.
Qed.

Create HintDb keeps.
#[export] Hint Resolve keeps_file_bind keeps_file_ret keeps_file_lift keeps_file_raise
  keeps_file_modify keeps_file_try : keeps.
#[export] Hint Extern 1 (forall w, mentions_file _ = mentions_file w) =>
  intros ?; reflexivity : keeps.

Lemma safe_post_tweet_keeps_file (a : api) (text : ustr)
    (media_ids : option (list string)) (in_reply_to_tweet_id : option N) :
  keeps_file (safe_post_tweet a text media_ids in_reply_to_tweet_id).
Proof.
  unfold safe_post_tweet, call_create_tweet, call_update_status.
  apply keeps_file_bind.
  - apply keeps_file_try; [eauto 10 with keeps|].
    intros [msg|msg|]; [|eauto with keeps..].
    destruct (quota_error _); eauto with keeps.
  - intros [b|]; eauto 10 with keeps.
Qed.

Lemma handle_mention_keeps_file (env : respond_env) (me : me_data)
    (processed : gset string) (m : mention) :
  keeps_file (handle_mention env me processed m).
Proof.
  unfold handle_mention. case_decide; [eauto with keeps|].
  apply keeps_file_bind; [eauto with keeps|]. intros [un|]; [|eauto with keeps].
  apply keeps_file_bind; [intros ?; reflexivity|]. intros use_llm.
  destruct (reply_text env use_llm un _) as [full_resp use_llm'].
  apply keeps_file_bind; [eauto with keeps|]. intros [].
  apply keeps_file_bind; [apply safe_post_tweet_keeps_file|].
  intros [|]; eauto 10 with keeps.
Qed.

Lemma handle_mentions_keeps_file (env : respond_env) (me : me_data)
    (ms : list mention) (processed : gset string) :
  keeps_file (handle_mentions env me processed ms).
Proof.
  revert processed. induction ms as [|m ms IH]; intros processed; simpl.
  - eauto with keeps.
  - apply keeps_file_bind; [apply handle_mention_keeps_file | done].
Qed.

(* ------------------------------------------------------------------ *)
(** ** The processed set only grows *)

Lemma handle_mention_grows (env : respond_env) (me : me_data)
    (processed processed' : gset string) (m : mention) (w w' : world) :
  handle_mention env me processed m w = (Ok processed', w') -> processed ⊆ processed'.
Proof.
  unfold handle_mention. case_decide.
  - intros [= <- _]. done.
  - cbv beta delta [mbind M_bind lift mret M_ret modify gets].
    destruct (get_user env (m_author_id m)) as [[un|]|e]; simpl; [|intros [= <- _]; done|done].
    destruct (reply_text env (USE_LLM w) un _) as [full_resp use_llm']; simpl.
    destruct (safe_post_tweet _ _ _ _ _) as [[[|]|e] w1]; simpl; [|intros [= <- _]; done|done].
    destruct (like env (m_id m)); simpl; [|done].
    intros [= <- _]. set_solver.
Qed.

Lemma handle_mentions_grows (env : respond_env) (me : me_data) (ms : list mention) :
  forall (processed processed' : gset string) (w w' : world),
  handle_mentions env me processed ms w = (Ok processed', w') -> processed ⊆ processed'.
Proof.
  induction ms as [|m ms IH]; intros processed processed' w w'; simpl.
  - intros [= <- _]. done.
  - cbv beta delta [mbind M_bind].
    destruct (handle_mention env me processed m w) as [[p1|e] w1] eqn:E; [|done].
    intros H. etransitivity; [eapply handle_mention_grows; exact E | eapply IH; exact H].
Qed.

Lemma read_file_elements (X : gset string) : read_file (Some (FileList (elements X))) = Ok X.
Proof. simpl. by rewrite list_to_set_elements_L. Qed.

(** A mention already in the set is skipped: no call, no change. *)
Lemma handle_mention_skip (env : respond_env) (me : me_data)
    (processed : gset string) (m : mention) (w : world) :
  tid_of m ∈ processed -> handle_mention env me processed m w = (Ok processed, w).
Proof. intros H. unfold handle_mention. by rewrite decide_True. Qed.

Lemma handle_mentions_skip (env : respond_env) (me : me_data)
    (processed : gset string) (ms : list mention) (w : world) :
  Forall (fun m => tid_of m ∈ processed) ms ->
  handle_mentions env me processed ms w = (Ok processed, w).
Proof.
  intros Hall. induction Hall as [|m ms Hm Hall IH]; simpl; [done|].
  cbv beta delta [mbind M_bind]. by rewrite handle_mention_skip.
Qed.

(* ------------------------------------------------------------------ *)
(** ** Claims on [bot_respond] *)

Lemma bot_respond_unfold (env : respond_env) (w : world) :
  bot_respond env w =
  match read_file (mentions_file w) with
  | Ok p => try_except (bot_respond_body env p) (fun _ => mret tt) w
  | Exn e => (Exn e, w)
  end.
Proof.
  unfold bot_respond, load_json_set. cbv beta iota delta [mbind M_bind gets lift].
  destruct (read_file (mentions_file w)); reflexivity.
Qed.

(** Where the [try] block leaves the file: untouched, holding a superset
    of the set it started from, or garbled by a failed dump. *)
Lemma bot_respond_body_file (env : respond_env) (processed : gset string) (w : world) :
  mentions_file (snd (bot_respond_body env processed w)) = mentions_file w \/
  ((exists processed', processed ⊆ processed' /\
     mentions_file (snd (bot_respond_body env processed w)) = Some (FileList (elements processed'))) \/
   (save_result env = SaveDumpFails /\
     mentions_file (snd (bot_respond_body env processed w)) = Some FileGarbled)) /\
  fst (bot_respond_body env processed w) = Ok tt.
Proof.
  unfold bot_respond_body. cbv beta delta [mbind M_bind lift mret M_ret].
  destruct (get_me env) as [[me|]|e]; cbn -[handle_mentions]; [|by left|by left].
  destruct (get_users_mentions env (me_id me)) as [[|m ms]|e];
    cbn -[handle_mentions]; [by left| |by left].
  pose proof (handle_mentions_keeps_file env me (m :: ms) processed w) as K.
  destruct (handle_mentions env me processed (m :: ms) w) as [[p'|e] w1] eqn:E;
    cbn -[handle_mentions] in K |- *; [|by left].
  unfold save_json_set. destruct (save_result env) eqn:Hs; simpl.
  - right. split; [|done]. left. exists p'. split; [|done].
    eapply handle_mentions_grows. exact E.
  - by left.
  - right. split; [|done]. by right.
Qed.

(** A garbled file stops every pass at [load_json_set], before the
    [try]: nothing is fetched, posted or written. *)
Lemma bot_respond_garbled (env : respond_env) (w : world) :
  mentions_file w = Some FileGarbled -> bot_respond env w = (Exn JSONDecodeError, w).
Proof. intros H. rewrite bot_respond_unfold, H. reflexivity. Qed.

(** C10 (amended): a pass that starts from a readable file ends without
    raising, and leaves either a readable file holding a superset of the
    set it loaded, or, only when its save fails after [open(fn, 'w')] has
    emptied the file, garbled text: the stored identifiers are lost and
    every later pass raises at [load_json_set]. *)
Theorem bot_respond_stored_set (env : respond_env) (w : world) (p : gset string) :
  read_file (mentions_file w) = Ok p ->
  let w' := snd (bot_respond env w) in
  fst (bot_respond env w) = Ok tt /\
  ((exists p', read_file (mentions_file w') = Ok p' /\ p ⊆ p') \/
   (save_result env = SaveDumpFails /\ mentions_file w' = Some FileGarbled /\
    forall env', bot_respond env' w' = (Exn JSONDecodeError, w'))).
Proof.
  intros Hp w'. subst w'. rewrite bot_respond_unfold, Hp. unfold try_except.
  destruct (bot_respond_body_file env p w) as [K|[[[p' [Hsub Hf]]|[Hs Hf]] Hok]].
  - destruct (bot_respond_body env p w) as [[[]|e] w1]; simpl in *;
      (split; [done|left; exists p; by rewrite K]).
  - destruct (bot_respond_body env p w) as [r w1]; simpl in *. subst r. simpl.
    split; [done|]. left. exists p'. by rewrite Hf, read_file_elements.
  - destruct (bot_respond_body env p w) as [r w1]; simpl in *. subst r. simpl.
    split; [done|]. right. split; [done|]. split; [done|].
    intros env'. by apply bot_respond_garbled.
Qed.

Lemma bot_respond_stored_set_witness :
  read_file (mentions_file world_55) = Ok (list_to_set ["55"]) /\
  (let w' := snd (bot_respond env_dump_fails world_55) in
   fst (bot_respond env_dump_fails world_55) = Ok tt /\
   ((exists p', read_file (mentions_file w') = Ok p' /\ list_to_set ["55"] ⊆ p') \/
    (save_result env_dump_fails = SaveDumpFails /\ mentions_file w' = Some FileGarbled /\
     forall env', bot_respond env' w' = (Exn JSONDecodeError, w')))).
Proof.
  assert (H : read_file (mentions_file world_55) = Ok (list_to_set ["55"])) by reflexivity.
  exact (conj H (bot_respond_stored_set env_dump_fails world_55 _ H)).
Defined.

(** C10 (as stated, false): the pass replies to 101 and reaches its save,
    which fails after [open(fn, 'w')] has emptied the file: "55" is no
    longer stored, and the next pass raises at [load_json_set] before
    fetching anything. *)
Lemma bot_respond_dump_failure_loses_set :
  let w1 := snd (bot_respond env_dump_fails world_55) in
  fst (bot_respond env_dump_fails world_55) = Ok tt /\
  length (posted w1) = 1 /\ liked w1 = [101%N] /\ mentions_file w1 = Some FileGarbled /\
  fst (bot_respond env_dump_fails w1) = Exn JSONDecodeError /\
  posted (snd (bot_respond env_dump_fails w1)) = posted w1.
Proof. vm_compute. repeat split. Qed.

(** C4 (amended): when the [try] block of a pass raises, the pass ends
    without saving: the file keeps what it held before the pass. *)
Theorem bot_respond_abort_keeps_file (env : respond_env) (w : world)
    (p : gset string) (e : exn) :
  read_file (mentions_file w) = Ok p ->
  fst (bot_respond_body env p w) = Exn e ->
  fst (bot_respond env w) = Ok tt /\
  mentions_file (snd (bot_respond env w)) = mentions_file w.
Proof.
  intros Hp Hexn. rewrite bot_respond_unfold, Hp. unfold try_except.
  destruct (bot_respond_body_file env p w) as [K|[_ Hok]].
  - destruct (bot_respond_body env p w) as [r w1]; simpl in *. subst r. done.
  - rewrite Hok in Hexn. discriminate.
Qed.

Lemma bot_respond_abort_keeps_file_witness :
  read_file (mentions_file world_55) = Ok (list_to_set ["55"]) /\
  fst (bot_respond_body env_abort (list_to_set ["55"]) world_55)
    = Exn (TweepyException (u "503 Service Unavailable")) /\
  (fst (bot_respond env_abort world_55) = Ok tt /\
   mentions_file (snd (bot_respond env_abort world_55)) = mentions_file world_55).
Proof.
  assert (H1 : read_file (mentions_file world_55) = Ok (list_to_set ["55"])) by reflexivity.
  assert (H2 : fst (bot_respond_body env_abort (list_to_set ["55"]) world_55)
              = Exn (TweepyException (u "503 Service Unavailable"))) by (vm_compute; reflexivity).
  exact (conj H1 (conj H2 (bot_respond_abort_keeps_file env_abort world_55 _ _ H1 H2))).
Defined.

(** C4 (as stated, false): mention 101 is replied to and liked earlier in
    the pass, the pass then aborts, and "101" is not in the file. *)
Lemma bot_respond_abort_loses_marked :
  let w1 := snd (bot_respond env_abort world_55) in
  liked w1 = [101%N] /\ length (posted w1) = 1 /\ mentions_file w1 = Some (FileList ["55"]) /\
  match read_file (mentions_file w1) with Ok p => "101" ∉ p | Exn _ => False end.
Proof.
  vm_compute. split; [done|split; [done|split; [done|]]].
  intros H. discriminate H.
Qed.

(** C2 (amended): a mention whose identifier is in the loaded set is
    skipped, so a pass over a batch whose identifiers are all in the
    loaded set posts nothing, likes nothing and leaves the stored set
    as it was, unless the save at the end of the pass fails after
    [open(fn, 'w')] has emptied the file, which then holds garbled text. *)
Theorem bot_respond_known_batch_no_posts (env : respond_env) (w : world) (p : gset string) :
  read_file (mentions_file w) = Ok p ->
  (forall me ms, get_me env = Ok (Some me) -> get_users_mentions env (me_id me) = Ok ms ->
     Forall (fun m => tid_of m ∈ p) ms) ->
  let w' := snd (bot_respond env w) in
  v2_calls w' = v2_calls w /\ v1_calls w' = v1_calls w /\ posted w' = posted w /\
  liked w' = liked w /\
  (read_file (mentions_file w') = Ok p \/
   (save_result env = SaveDumpFails /\ mentions_file w' = Some FileGarbled)).
Proof.
  intros Hp Hknown w'. subst w'. rewrite bot_respond_unfold, Hp.
  unfold try_except, bot_respond_body. cbv beta delta [mbind M_bind lift mret M_ret].
  destruct (get_me env) as [[me|]|e] eqn:Hme; cbn -[handle_mentions];
    [|do 4 (split; [done|]); by left ..].
  destruct (get_users_mentions env (me_id me)) as [[|m ms]|e] eqn:Hms;
    cbn -[handle_mentions]; [do 4 (split; [done|]); by left| |do 4 (split; [done|]); by left].
  rewrite handle_mentions_skip by (eapply Hknown; eauto).
  unfold save_json_set. destruct (save_result env); simpl.
  - do 4 (split; [done|]). left. by rewrite list_to_set_elements_L.
  - do 4 (split; [done|]). by left.
  - do 4 (split; [done|]). by right.
Qed.

Lemma bot_respond_known_batch_no_posts_witness :
  let env := respond_env_of api_ok [mention_101] users_ok like_ok in
  read_file (mentions_file world_101) = Ok (list_to_set ["101"]) /\
  (forall me ms, get_me env = Ok (Some me) -> get_users_mentions env (me_id me) = Ok ms ->
     Forall (fun m => tid_of m ∈ (list_to_set ["101"] : gset string)) ms) /\
  (let w' := snd (bot_respond env world_101) in
   v2_calls w' = v2_calls world_101 /\ v1_calls w' = v1_calls world_101 /\
   posted w' = posted world_101 /\ liked w' = liked world_101 /\
   (read_file (mentions_file w') = Ok (list_to_set ["101"]) \/
    (save_result env = SaveDumpFails /\ mentions_file w' = Some FileGarbled))).
Proof.
  assert (H1 : read_file (mentions_file world_101) = Ok (list_to_set ["101"])) by reflexivity.
  assert (H2 : forall me ms,
     get_me (respond_env_of api_ok [mention_101] users_ok like_ok) = Ok (Some me) ->
     get_users_mentions (respond_env_of api_ok [mention_101] users_ok like_ok) (me_id me) = Ok ms ->
     Forall (fun m => tid_of m ∈ (list_to_set ["101"] : gset string)) ms).
  { intros me ms _ Hms. simpl in Hms. injection Hms as <-.
    repeat constructor. }
  exact (conj H1 (conj H2 (bot_respond_known_batch_no_posts _ world_101 _ H1 H2))).
Defined.

(** C2 (as stated, false): a first pass whose reply fails leaves the
    stored set as it was; re-running on that unchanged set with the same
    batch posts the reply. *)
Lemma bot_respond_rerun_posts_again :
  let w0 := start_world true in
  let w1 := snd (bot_respond (respond_env_of (api_tweepy_error "network unreachable")
                               [mention_101] users_ok like_ok) w0) in
  let w2 := snd (bot_respond (respond_env_of api_ok [mention_101] users_ok like_ok) w1) in
  read_file (mentions_file w1) = read_file (mentions_file w0) /\
  posted w1 = [] /\ length (posted w2) = 1.
Proof. vm_compute. repeat split. Qed.

(** C3 (code defect): [client.like] runs before [processed.add] with no
    guard.  When the reply is posted but the like raises (a 403 from an
    API tier without likes), the identifier is never added, the pass
    aborts unsaved, and the next pass replies to the same mention again. *)
Theorem bot_respond_like_failure_rereplies :
  let env := respond_env_of api_ok [mention_101] users_ok
               (fun _ => Exn (TweepyException (u "403 Forbidden"))) in
  let w0 := start_world false in
  let w1 := snd (bot_respond env w0) in
  let w2 := snd (bot_respond env w1) in
  fst (handle_mention env bot_me ∅ mention_101 w0) = Exn (TweepyException (u "403 Forbidden")) /\
  length (posted (snd (handle_mention env bot_me ∅ mention_101 w0))) = 1 /\
  length (posted w1) = 1 /\ mentions_file w1 = None /\ length (posted w2) = 2.
Proof. vm_compute. repeat split. Qed.

(* ------------------------------------------------------------------ *)
(** ** Claims on the event endpoint *)

Lemma safe_post_tweet_no_raise (a : api) (text : ustr)
    (media_ids : option (list string)) (in_reply_to_tweet_id : option N) (w : world) :
  v2_tweepy_only a ->
  exists b, fst (safe_post_tweet a text media_ids in_reply_to_tweet_id w) = Ok b.
Proof.
  intros Ha. unfold safe_post_tweet. run_monad.
  destruct (create_tweet a _) as [[]|e] eqn:Hv2; simpl; [eauto|].
  destruct (Ha _ _ Hv2) as [msg ->]. simpl.
  destruct (quota_error (py_lower msg)); simpl; [|eauto].
  run_monad. destruct (update_status a _); simpl; eauto.
Qed.

Lemma post_update_no_raise (env : event_env) (m : update_msg) (w : world) :
  v2_tweepy_only (e_api env) -> fst (post_update env m w) = Ok tt.
Proof.
  intros Ha. unfold post_update. cbv beta delta [mbind M_bind mret M_ret].
  destruct (safe_post_tweet_no_raise (e_api env) (render_update env m) None None w Ha) as [b Hb].
  destruct (safe_post_tweet _ _ _ _ w) as [r w1]. simpl in *. by subst r.
Qed.

(** C8 (as stated, false): a "win" event whose player is not a string
    makes [player.replace] raise; the request gets a 500. *)
Lemma game_event_bridge_nonstring_player_raises :
  let ev := JObj [(u "type", JStr (u "win")); (u "player", JNum 5)] in
  fst (game_event_bridge (event_env_of api_ok) ev (start_world true)) = Exn AttributeError /\
  fst (game_event (event_env_of api_ok) (JSONBody ev) (start_world true))
    = Ok (mk_response 500 FlaskErrorPage).
Proof. vm_compute. split; reflexivity. Qed.

(** C8 (amended): for a JSON-object event, with defaults for missing
    fields, the bridge completes without raising when, for a "win"
    event, the player value (the default if missing) is a string, and
    the primary posting call raises only tweepy errors.  The handler then
    acknowledges a non-empty object with 200 and answers {} with 400. *)
Theorem game_event_bridge_object_completes (env : event_env)
    (kvs : list (ustr * json)) (w : world) :
  (py_eq_str (dict_get kvs (u "type") JNull) (u "win") = true ->
   exists s, dict_get kvs (u "player") (JStr (u "Mystery Strategist")) = JStr s) ->
  v2_tweepy_only (e_api env) ->
  fst (game_event_bridge env (JObj kvs) w) = Ok tt /\
  fst (game_event env (JSONBody (JObj kvs)) w)
    = Ok (if bool_decide (kvs = []) then mk_response 400 (ErrorJSON (u "JSON required"))
          else mk_response 200 AckJSON).
Proof.
  intros Hplayer Ha.
  assert (Hb : fst (game_event_bridge env (JObj kvs) w) = Ok tt).
  { unfold game_event_bridge.
    destruct (py_eq_str (dict_get kvs (u "type") JNull) (u "win")) eqn:Hwin.
    - destruct (Hplayer eq_refl) as [s Hs]. rewrite Hs.
      cbv beta delta [mbind M_bind lift strip_spaces]. cbn iota.
      destruct (json_truthy _); apply post_update_no_raise, Ha.
    - repeat (case_match; [apply post_update_no_raise, Ha|]). done. }
  split; [exact Hb|].
  destruct (decide (kvs = [])) as [->|Hne]; [reflexivity|].
  unfold game_event, json_truthy. rewrite !bool_decide_eq_false_2 by done.
  cbn [negb]. unfold try_except. cbv beta delta [mbind M_bind mret M_ret].
  destruct (game_event_bridge env (JObj kvs) w) as [r w1]. simpl in Hb. by subst r.
Qed.

Lemma game_event_bridge_object_completes_witness :
  (py_eq_str (dict_get ev_win_ada (u "type") JNull) (u "win") = true ->
   exists s, dict_get ev_win_ada (u "player") (JStr (u "Mystery Strategist")) = JStr s) /\
  v2_tweepy_only (e_api (event_env_of api_ok)) /\
  (fst (game_event_bridge (event_env_of api_ok) (JObj ev_win_ada) (start_world true)) = Ok tt /\
   fst (game_event (event_env_of api_ok) (JSONBody (JObj ev_win_ada)) (start_world true))
     = Ok (if bool_decide (ev_win_ada = []) then mk_response 400 (ErrorJSON (u "JSON required"))
           else mk_response 200 AckJSON)).
Proof.
  assert (H1 : py_eq_str (dict_get ev_win_ada (u "type") JNull) (u "win") = true ->
     exists s, dict_get ev_win_ada (u "player") (JStr (u "Mystery Strategist")) = JStr s).
  { intros _. exists (u "Ada"). vm_compute. reflexivity. }
  assert (H2 : v2_tweepy_only (e_api (event_env_of api_ok))).
  { intros k e H. simpl in H. discriminate H. }
  exact (conj H1 (conj H2
    (game_event_bridge_object_completes (event_env_of api_ok) ev_win_ada (start_world true) H1 H2))).
Defined.

(** C9 (as stated, false): valid JSON bodies that are not answered with
    the acknowledgement: {} is rejected with 400, [1] gets a 500. *)
Lemma game_event_valid_json_not_acknowledged :
  fst (game_event (event_env_of api_ok) (JSONBody (JObj [])) (start_world true))
    = Ok (mk_response 400 (ErrorJSON (u "JSON required"))) /\
  fst (game_event (event_env_of api_ok) (JSONBody (JArr [JNum 1])) (start_world true))
    = Ok (mk_response 500 FlaskErrorPage).
Proof. vm_compute. split; reflexivity. Qed.

(** C9 (amended): the answer of the endpoint for every request body:
    a request whose Content-Type is not JSON gets Flask's 415, a JSON
    one whose body does not parse gets Flask's 400; a falsy JSON value
    (null, false, 0, "", [], {}) gets 400 "JSON required"; a truthy
    value that is not an object gets a 500 ([event.get] raises); a
    non-empty object gets the 200 acknowledgement when the bridge
    completes and a 500 when it raises. *)
Theorem game_event_responses (env : event_env) (req : request_body) (w : world) :
  fst (game_event env req w) =
  Ok (match req with
      | NotJSONType => mk_response 415 FlaskErrorPage
      | BadJSON => mk_response 400 FlaskErrorPage
      | JSONBody j =>
          if negb (json_truthy j) then mk_response 400 (ErrorJSON (u "JSON required"))
          else match j with
               | JObj _ =>
                   match fst (game_event_bridge env j w) with
                   | Ok _ => mk_response 200 AckJSON
                   | Exn _ => mk_response 500 FlaskErrorPage
                   end
               | _ => mk_response 500 FlaskErrorPage
               end
      end).
Proof.
  destruct req as [| |j]; [done|done|]. unfold game_event.
  destruct (negb (json_truthy j)); [done|].
  unfold try_except. cbv beta delta [mbind M_bind mret M_ret].
  destruct j; try done.
  destruct (game_event_bridge env (JObj kvs) w) as [[[]|e] w1]; done.
Qed.

(* ------------------------------------------------------------------ *)
(** ** Text helpers for the reply and post builders *)

Lemma py_contains_drop (p h : ustr) :
  py_contains p h = true <-> exists i, is_prefix p (drop i h) = true.
Proof.
  induction h as [|c h IH]; simpl.
  - rewrite orb_false_r. split.
    + intros H. by exists 0.
    + intros [i Hi]. by rewrite drop_nil in Hi.
  - rewrite orb_true_iff, IH. split.
    + intros [H|[i Hi]]; [by exists 0 | by exists (S i)].
    + intros [[|i] Hi]; [by left | right; eauto].
Qed.

Lemma py_contains_infix (p s t : ustr) :
  py_contains p s = true -> is_infix s t -> py_contains p t = true.
Proof.
  rewrite !py_contains_app. intros [l [r ->]] [k1 [k2 ->]].
  exists (k1 ++ l), (r ++ k2). by rewrite <- !app_assoc.
Qed.

Lemma lstrip_suffix (s : ustr) : lstrip s `suffix_of` s.
Proof.
  induction s as [|c s IH]; simpl; [done|].
  destruct (py_space c); [|done].
  destruct IH as [k Hk]. exists (c :: k). by rewrite Hk at 1.
Qed.

Lemma py_strip_infix (s : ustr) : is_infix (py_strip s) s.
Proof.
  unfold py_strip.
  destruct (lstrip_suffix s) as [k1 Hk1].
  destruct (lstrip_suffix (reverse (lstrip s))) as [k2 Hk2].
  exists k1, (reverse k2).
  rewrite Hk1 at 1. f_equal.
  apply (f_equal reverse) in Hk2.
  by rewrite reverse_involutive, reverse_app in Hk2.
Qed.

Lemma take_infix (n : nat) (s : ustr) : is_infix (take n s) s.
Proof. exists [], (drop n s). by rewrite take_drop. Qed.

Lemma split_last_go_no_sep (fuel : nat) (sep s cur : ustr) :
  sep <> [] -> length s < fuel ->
  (forall i, i < length cur -> is_prefix sep (drop i (cur ++ s)) = false) ->
  py_contains sep (split_last_go fuel sep s cur) = false.
Proof.
  intros Hsep. revert s cur.
  induction fuel as [|fuel IH]; intros s cur Hlen Hcur; [lia|].
  destruct s as [|c s']; simpl.
  - apply not_true_iff_false. rewrite py_contains_drop. intros [i Hi].
    destruct (decide (i < length cur)) as [Hlt|Hge].
    + specialize (Hcur i Hlt). rewrite app_nil_r in Hcur. congruence.
    + rewrite drop_ge in Hi by lia. destruct sep; [done|discriminate].
  - destruct (is_prefix sep (c :: s')) eqn:Hp.
    + apply IH; [|intros i Hi; simpl in Hi; lia].
      rewrite length_drop. simpl in *. destruct sep; [done|simpl; lia].
    + apply IH; [simpl in *; lia|].
      intros i Hi. rewrite <- app_assoc. simpl.
      rewrite length_app in Hi. simpl in Hi.
      destruct (decide (i < length cur)) as [Hlt|Hge].
      * by apply Hcur.
      * assert (i = length cur) as -> by lia.
        by rewrite drop_app_length.
Qed.

Lemma py_split_last_no_sep (sep s : ustr) :
  sep <> [] -> py_contains sep (py_split_last sep s) = false.
Proof.
  intros Hsep. apply split_last_go_no_sep; [done|lia|].
  intros i Hi. simpl in Hi. lia.
Qed.

Lemma py_slice_to_length (s : ustr) (stop : Z) :
  (0 <= stop)%Z -> length (py_slice_to s stop) <= Z.to_nat stop.
Proof.
  intros H. unfold py_slice_to.
  destruct (Z.leb_spec 0 stop); [|lia].
  rewrite length_take. lia.
Qed.

Lemma py_choice_in (i : nat) (l : list ustr) :
  l <> [] -> In (py_choice i l) l.
Proof.
  intros Hl. unfold py_choice. apply nth_In.
  apply Nat.mod_upper_bound. destruct l; simpl; [done|lia].
Qed.

Lemma forallb_length_le (l : list ustr) (n : nat) (x : ustr) :
  forallb (fun y => Nat.leb (length y) n) l = true -> In x l -> length x <= n.
Proof.
  intros Hall Hx. rewrite forallb_forall in Hall.
  apply Nat.leb_le. by apply Hall.
Qed.

(* ------------------------------------------------------------------ *)
(** ** What [safe_post_tweet] sends to the v2 endpoint *)

(** Every call makes exactly one v2 call, with the truncated text. *)
Lemma safe_post_tweet_v2_log (a : api) (text : ustr)
    (media_ids : option (list string)) (in_reply_to_tweet_id : option N) (w : world) :
  v2_calls (snd (safe_post_tweet a text media_ids in_reply_to_tweet_id w)) =
  v2_calls w ++ [v2_args (truncate_text text in_reply_to_tweet_id) media_ids in_reply_to_tweet_id].
Proof.
  unfold safe_post_tweet. run_monad.
  destruct (create_tweet a _) as [[]|[msg|msg|]]; simpl; try reflexivity.
  destruct (quota_error _); simpl; [|reflexivity].
  destruct (update_status a _); reflexivity.
Qed.

Lemma truncate_text_short (text : ustr) (r : option N) :
  length text <= TWITTER_CHAR_LIMIT -> truncate_text text r = text.
Proof.
  intros H. unfold truncate_text.
  destruct (Nat.ltb_spec TWITTER_CHAR_LIMIT (length text)); [lia|done].
Qed.

(* ------------------------------------------------------------------ *)
(** ** [generate_llm_response] *)

Lemma BOT_MARKER_nonempty : BOT_MARKER <> [].
Proof. discriminate. Qed.

Lemma generate_llm_response_result (token : option ustr) (o : hf_outcome) (w : world) :
  match fst (generate_llm_response token o w) with
  | Ok (Some r) => length r <= 200 /\ py_contains BOT_MARKER r = false
  | Ok None => True
  | Exn _ => False
  end.
Proof.
  unfold generate_llm_response. run_monad.
  destruct (negb (USE_LLM w) || negb (token_truthy token)); [exact I|].
  destruct o as [e|code body]; [exact I|].
  destruct (code =? 200)%N; cycle 1.
  { destruct ((code =? 402)%N || (code =? 429)%N); exact I. }
  destruct body as [j|e]; [|exact I].
  destruct j as [| | | | [|r0 rest] |]; try exact I.
  destruct (generated_text r0) as [g|e]; [|exact I].
  destruct (py_contains BOT_MARKER g) eqn:Hg; simpl; (split; [rewrite length_take; lia|]).
  - apply not_true_iff_false. intros H.
    pose proof (py_contains_infix _ _ _ H (take_infix _ _)) as H1.
    pose proof (py_contains_infix _ _ _ H1 (py_strip_infix _)) as H2.
    by rewrite py_split_last_no_sep in H2 by apply BOT_MARKER_nonempty.
  - apply not_true_iff_false. intros H.
    pose proof (py_contains_infix _ _ _ H (take_infix _ _)) as H1. congruence.
Qed.

Lemma generate_llm_response_off (token : option ustr) (o : hf_outcome) (w : world) :
  USE_LLM w = false \/ token_truthy token = false ->
  generate_llm_response token o w = (Ok None, w).
Proof.
  intros H. unfold generate_llm_response. run_monad.
  destruct H as [-> | ->]; [reflexivity|]. by rewrite orb_true_r.
Qed.

(* ------------------------------------------------------------------ *)
(** ** Replies to mentions *)

Lemma at_user_length (username : ustr) : length (at_user username) = length username + 2.
Proof. unfold at_user. rewrite !length_app. simpl. lia. Qed.

Lemma contextual_opts_prefix (username message : ustr) (d : ctx_draws) :
  Forall (fun o => at_user username `prefix_of` o) (contextual_opts username message d).
Proof.
  unfold contextual_opts. cbv zeta.
  repeat case_match; repeat constructor; eexists; reflexivity.
Qed.

Lemma contextual_opts_nonempty (username message : ustr) (d : ctx_draws) :
  contextual_opts username message d <> [].
Proof. unfold contextual_opts. cbv zeta. repeat case_match; discriminate. Qed.

Lemma contextual_choice_prefix (username message : ustr) (d : ctx_draws) (i : nat) :
  at_user username `prefix_of` py_choice i (contextual_opts username message d).
Proof.
  pose proof (contextual_opts_prefix username message d) as H.
  rewrite Forall_forall in H.
  apply H, list_elem_of_In, py_choice_in, contextual_opts_nonempty.
Qed.

(** The cut of lines 449-451 fits the limit for a name of at most 255
    code points. *)
Lemma contextual_cut_length (username line : ustr) :
  length username <= 255 ->
  length (at_user username
          ++ py_slice_to line (Z.of_nat TWITTER_CHAR_LIMIT
                               - Z.of_nat (length (at_user username ++ nl2 ++ GAME_LINK)))
          ++ nl2 ++ GAME_LINK) <= TWITTER_CHAR_LIMIT.
Proof.
  intros H.
  assert (length (at_user username ++ nl2 ++ GAME_LINK) = length username + 25) as E.
  { rewrite !length_app, at_user_length. simpl. lia. }
  rewrite E.
  pose proof (py_slice_to_length line
    (Z.of_nat TWITTER_CHAR_LIMIT - Z.of_nat (length username + 25))) as L.
  rewrite !length_app, at_user_length.
  change (length nl2) with 2. change (length GAME_LINK) with 21.
  unfold TWITTER_CHAR_LIMIT in *. lia.
Qed.

Ltac contextual_choice :=
  match goal with
  | |- context [Nat.ltb TWITTER_CHAR_LIMIT (length ?resp)] =>
      destruct (Nat.ltb_spec TWITTER_CHAR_LIMIT (length resp)) as [Hlong|Hshort]
  end;
  (eexists; eexists; split; [reflexivity|split;
  [ first [ by eexists
          | apply contextual_choice_prefix ]
  | intros Hun; first [ apply contextual_cut_length; lia | unfold TWITTER_CHAR_LIMIT in *; lia ] ]]).

Lemma generate_contextual_response_result (token : option ustr) (hf : hf_outcome)
    (d : ctx_draws) (username message : ustr) (w : world) :
  exists r w', generate_contextual_response token hf d username message w = (Ok r, w') /\
    at_user username `prefix_of` r /\
    (length username <= 78 -> length r <= TWITTER_CHAR_LIMIT).
Proof.
  unfold generate_contextual_response. run_monad.
  destruct (USE_LLM w && c_llm_roll d && Nat.ltb 10 (length message)).
  - pose proof (generate_llm_response_result token hf w) as S.
    destruct (generate_llm_response token hf w) as [[[[|c r]|]|e] w1]; simpl in S.
    + contextual_choice.
    + exists (at_user username ++ c :: r), w1. split; [reflexivity|].
      split; [by eexists|]. intros Hun. rewrite length_app, at_user_length.
      destruct S as [S1 _]. simpl in *. unfold TWITTER_CHAR_LIMIT. lia.
    + contextual_choice.
    + done.
  - contextual_choice.
Qed.

(* ------------------------------------------------------------------ *)
(** ** Media and the scheduled posts *)

Lemma media_ids_of_truthy (roll : bool) (me : media_env) (mids : option (list string)) :
  media_ids_of roll me = Ok mids ->
  (if media_truthy mids then mids else None) = mids.
Proof.
  unfold media_ids_of. destruct roll; [|by intros [= <-]].
  destruct (get_random_media_id me) as [[[|c s]|]|e]; intros H; inversion H; reflexivity.
Qed.

(** A post of at most 280 code points reaches the v2 endpoint as it is. *)
Lemma safe_post_tweet_v2_short (a : api) (text : ustr) (mids : option (list string))
    (w : world) :
  length text <= TWITTER_CHAR_LIMIT ->
  (if media_truthy mids then mids else None) = mids ->
  v2_calls (snd (safe_post_tweet a text mids None w)) = v2_calls w ++ [mk_v2 text mids None].
Proof.
  intros H Hm. rewrite safe_post_tweet_v2_log, truncate_text_short by done.
  unfold v2_args. by rewrite Hm.
Qed.

(** The media lookup, then the post: the lookup raising means no post. *)
Lemma post_media_snd (a : api) (text : ustr) (r : res (option (list string))) (w : world) :
  snd ((mids ← lift r; _ ← safe_post_tweet a text mids None; mret tt) w) =
  match r with
  | Ok mids => snd (safe_post_tweet a text mids None w)
  | Exn _ => w
  end.
Proof.
  run_monad. destruct r as [mids|e]; [|reflexivity].
  by destruct (safe_post_tweet a text mids None w) as [[]].
Qed.

(** The cut of lines 333-334 and 382-384: ["🎮 "], at most 255 code
    points of the text, ["\n\n"] and the link. *)
Lemma post_cut_length (text : ustr) :
  length (ud "🎮 "
          ++ py_slice_to text (Z.of_nat TWITTER_CHAR_LIMIT
                               - Z.of_nat (length (ud "🎮 " ++ nl2 ++ GAME_LINK)))
          ++ nl2 ++ GAME_LINK) <= TWITTER_CHAR_LIMIT.
Proof.
  change (length (ud "🎮 " ++ nl2 ++ GAME_LINK)) with 25.
  pose proof (py_slice_to_length text (Z.of_nat TWITTER_CHAR_LIMIT - Z.of_nat 25)) as L.
  rewrite !length_app.
  change (length (ud "🎮 ")) with 2. change (length nl2) with 2.
  change (length GAME_LINK) with 21.
  unfold TWITTER_CHAR_LIMIT in *. lia.
Qed.

Ltac ends_with_link := repeat apply suffix_app_r; reflexivity.

Ltac case_limit :=
  match goal with
  | |- context [Nat.ltb TWITTER_CHAR_LIMIT ?n] => destruct (Nat.ltb_spec TWITTER_CHAR_LIMIT n)
  end.

(* ------------------------------------------------------------------ *)
(** ** Further properties of the code *)

(** X1: [generate_llm_response] never raises; a text it returns has
    at most 200 code points and does not contain "9DTTT Bot:". *)
Theorem generate_llm_response_clean (token : option ustr) (o : hf_outcome) (w : world) :
  exists res, fst (generate_llm_response token o w) = Ok res /\
    forall r, res = Some r -> length r <= 200 /\ py_contains BOT_MARKER r = false.
Proof.
  pose proof (generate_llm_response_result token o w) as H.
  destruct (fst (generate_llm_response token o w)) as [[r|]|e].
  - exists (Some r). split; [done|]. by intros ? [= <-].
  - exists None. split; [done|]. discriminate.
  - done.
Qed.

(** X2: the only state [generate_llm_response] changes is [USE_LLM]:
    it is set to False when the request is made (USE_LLM on, token
    set) and answered with status 402 or 429; otherwise the state is
    left as it was. *)
Theorem generate_llm_response_state (token : option ustr) (o : hf_outcome) (w : world) :
  snd (generate_llm_response token o w) =
  if USE_LLM w && token_truthy token &&
     match o with
     | HFResponse code _ => (code =? 402)%N || (code =? 429)%N
     | HFRaise _ => false
     end
  then set_llm_off w else w.
Proof.
  unfold generate_llm_response. run_monad.
  destruct (USE_LLM w), (token_truthy token); simpl; try reflexivity.
  destruct o as [e|code body]; [reflexivity|].
  destruct (code =? 200)%N eqn:E200.
  - apply N.eqb_eq in E200 as ->. simpl.
    destruct body as [j|e]; simpl; [|reflexivity].
    destruct j as [| | | | [|r0 rest] |]; simpl; try reflexivity.
    destruct (generated_text r0); simpl; [|reflexivity].
    by destruct (py_contains _ _).
  - by destruct ((code =? 402)%N || (code =? 429)%N).
Qed.

(** X3: once the inference endpoint has answered 402 or 429, a later
    [generate_contextual_response] no longer depends on that endpoint:
    its reply and its state are the same whatever the endpoint would
    answer. *)
Theorem llm_quota_answer_stops_llm_replies (token : option ustr) (code : N)
    (body : res json) (w : world) (d : ctx_draws) (username message : ustr)
    (hf hf' : hf_outcome) :
  code = 402%N \/ code = 429%N ->
  let w' := snd (generate_llm_response token (HFResponse code body) w) in
  generate_contextual_response token hf d username message w' =
  generate_contextual_response token hf' d username message w'.
Proof.
  intros Hc w'.
  assert (USE_LLM w' = false \/ token_truthy token = false) as Hoff.
  { subst w'. unfold generate_llm_response. run_monad.
    destruct (USE_LLM w) eqn:Eu, (token_truthy token) eqn:Et; simpl; auto.
    destruct Hc as [-> | ->]; simpl; auto. }
  clearbody w'.
  unfold generate_contextual_response. run_monad.
  destruct (USE_LLM w' && c_llm_roll d && Nat.ltb 10 (length message)); [|reflexivity].
  by rewrite !generate_llm_response_off by done.
Qed.

Lemma llm_quota_answer_stops_llm_replies_witness :
  (402%N = 402%N \/ 402%N = 429%N) /\
  let w' := snd (generate_llm_response (Some (u "hf_x")) (HFResponse 402 (Ok JNull))
                   (start_world true)) in
  generate_contextual_response (Some (u "hf_x"))
    (HFResponse 200 (Ok (JArr [JObj [(u "generated_text", JStr (u "Bold move!"))]])))
    (mk_ctx_draws [] [] [] [] [] [] true 0 []) (u "ada") (u "how do I win this game?") w' =
  generate_contextual_response (Some (u "hf_x")) (HFRaise (OtherException (u "timeout")))
    (mk_ctx_draws [] [] [] [] [] [] true 0 []) (u "ada") (u "how do I win this game?") w'.
Proof.
  split; [left; reflexivity|].
  apply (llm_quota_answer_stops_llm_replies (Some (u "hf_x")) 402 (Ok JNull)
           (start_world true)). left; reflexivity.
Defined.

(** X4: the reply composed for a mention (challenge, victory or
    contextual) never raises and starts with "@", the user name and a
    space. *)
Theorem mention_reply_addresses_user (token : option ustr) (hf : hf_outcome)
    (d : ctx_draws) (competitive friendly un umsg : ustr) (w : world) :
  exists r w', mention_reply token hf d competitive friendly un umsg w = (Ok r, w') /\
    (u "@" ++ un ++ u " ") `prefix_of` r.
Proof.
  unfold mention_reply. cbv zeta.
  destruct (any_in _ _).
  { eexists _, w. split; [reflexivity|]. rewrite <- !app_assoc.
    apply prefix_app, prefix_app.
    change (u " Challenge accepted! Head to ") with (u " " ++ u "Challenge accepted! Head to ").
    rewrite <- app_assoc. by eexists. }
  destruct (any_in _ _).
  { eexists _, w. split; [reflexivity|]. rewrite <- !app_assoc.
    apply prefix_app, prefix_app.
    assert (ud " You beat the grid? Respect! Post a screenshot or tell me the dimensions you conquered 🔥 "
            = u " " ++ ud "You beat the grid? Respect! Post a screenshot or tell me the dimensions you conquered 🔥 ")
      as -> by (vm_compute; reflexivity).
    rewrite <- app_assoc. by eexists. }
  destruct (generate_contextual_response_result token hf d un umsg w)
    as (r & w' & E & P & _).
  by exists r, w'.
Qed.

(** X5: for a user name of at most 78 code points and personality lines
    drawn from the competitive and friendly tones, the reply composed
    for a mention has at most 280 code points. *)
Theorem mention_reply_within_limit (token : option ustr) (hf : hf_outcome)
    (d : ctx_draws) (competitive friendly un umsg : ustr) (w : world) :
  In competitive tone_competitive -> In friendly tone_friendly -> length un <= 78 ->
  exists r w', mention_reply token hf d competitive friendly un umsg w = (Ok r, w') /\
    length r <= TWITTER_CHAR_LIMIT.
Proof.
  intros Hc Hf Hun.
  pose proof (forallb_length_le tone_competitive 56 competitive
                ltac:(vm_compute; reflexivity) Hc) as Lc.
  pose proof (forallb_length_le tone_friendly 37 friendly
                ltac:(vm_compute; reflexivity) Hf) as Lf.
  unfold mention_reply. cbv zeta.
  destruct (any_in _ _).
  { eexists _, w. split; [reflexivity|].
    rewrite !length_app.
    change (length (u "@")) with 1. change (length nl2) with 2.
    change (length (u " Challenge accepted! Head to ")) with 29.
    change (length GAME_LINK) with 21.
    assert (length (ud " and start a game — tag me when you win (or lose 😏). Let's see your 9D skills!")
            = 78) as -> by (vm_compute; reflexivity).
    unfold TWITTER_CHAR_LIMIT. lia. }
  destruct (any_in _ _).
  { eexists _, w. split; [reflexivity|].
    rewrite !length_app.
    change (length (u "@")) with 1. change (length nl2) with 2.
    assert (length (ud " You beat the grid? Respect! Post a screenshot or tell me the dimensions you conquered 🔥 ")
            = 89) as -> by (vm_compute; reflexivity).
    change (length GAME_LINK) with 21.
    unfold TWITTER_CHAR_LIMIT. lia. }
  destruct (generate_contextual_response_result token hf d un umsg w)
    as (r & w' & E & _ & L).
  exists r, w'. split; [done|]. by apply L.
Qed.

Lemma mention_reply_within_limit_witness :
  In (ud "Prepare for defeat.") tone_competitive /\
  In (ud "Great game! Keep it up!") tone_friendly /\
  length (u "ada") <= 78 /\
  exists r w', mention_reply None (HFRaise AttributeError)
                 (mk_ctx_draws [] [] [] [] [] [] false 0 [])
                 (ud "Prepare for defeat.") (ud "Great game! Keep it up!")
                 (u "ada") (u "play me") (start_world false) = (Ok r, w') /\
    length r <= TWITTER_CHAR_LIMIT.
Proof.
  assert (In (ud "Prepare for defeat.") tone_competitive) as Hc
    by (apply in_map; do 5 right; left; reflexivity).
  assert (In (ud "Great game! Keep it up!") tone_friendly) as Hf
    by (apply in_map; left; reflexivity).
  split; [exact Hc|]. split; [exact Hf|]. split; [simpl; lia|].
  exact (mention_reply_within_limit None (HFRaise AttributeError)
           (mk_ctx_draws [] [] [] [] [] [] false 0 [])
           (ud "Prepare for defeat.") (ud "Great game! Keep it up!")
           (u "ada") (u "play me") (start_world false) Hc Hf ltac:(simpl; lia)).
Defined.

(** X6: the text [post_update] posts has at most 280 code points and
    ends with the game link, so the v2 call carries it unchanged. *)
Theorem post_update_text_sent (a : api) (text tag : ustr) (w : world) :
  let t := post_update_text text tag in
  length t <= TWITTER_CHAR_LIMIT /\ GAME_LINK `suffix_of` t /\
  v2_calls (snd (safe_post_tweet a t None None w)) = v2_calls w ++ [mk_v2 t None None].
Proof.
  intros t.
  assert (length t <= TWITTER_CHAR_LIMIT) as L.
  { subst t. unfold post_update_text. cbv zeta.
    case_limit; [apply post_cut_length | lia]. }
  split; [done|]. split.
  - subst t. unfold post_update_text. cbv zeta.
    destruct (Nat.ltb _ _); ends_with_link.
  - exact (safe_post_tweet_v2_short a t None w L eq_refl).
Qed.

(** X7: a broadcast message has at most 280 code points and ends with
    the game link; unless the media lookup raises, [bot_broadcast] makes
    one v2 call, with that message unchanged and the media ids of the
    roll and the upload. *)
Theorem bot_broadcast_post (a : api) (me : media_env) (d : broadcast_draws) (w : world) :
  let t := broadcast_msg d in
  length t <= TWITTER_CHAR_LIMIT /\ GAME_LINK `suffix_of` t /\
  v2_calls (snd (bot_broadcast a me d w)) =
    v2_calls w ++ match media_ids_of (b_media_roll d) me with
                  | Ok mids => [mk_v2 t mids None]
                  | Exn _ => []
                  end.
Proof.
  intros t.
  assert (length t <= TWITTER_CHAR_LIMIT) as L.
  { subst t. unfold broadcast_msg. cbv zeta.
    case_limit; [apply post_cut_length | lia]. }
  split; [done|]. split.
  - subst t. unfold broadcast_msg, broadcast_template. cbv zeta.
    destruct (Nat.ltb _ _), (b_typ d); ends_with_link.
  - unfold bot_broadcast. cbv zeta. rewrite post_media_snd.
    destruct (media_ids_of (b_media_roll d) me) as [mids|e] eqn:Em.
    + exact (safe_post_tweet_v2_short a t mids w L (media_ids_of_truthy _ _ _ Em)).
    + by rewrite app_nil_r.
Qed.

(** X8: [get_random_media_id] only yields an id that a successful upload
    returned for a listed file with an allowed extension; the broadcast
    and hype posts attach media only when their roll passed and that id
    is non-empty, as the one element of the list. *)
Theorem media_ids_of_uploaded (roll : bool) (me : media_env) (mids : list string) :
  media_ids_of roll me = Ok (Some mids) ->
  roll = true /\
  exists listing f mid, mids = [mid] /\ mid <> EmptyString /\
    m_listing me = Some (Ok listing) /\ In f listing /\ media_file f = true /\
    m_upload me (media_path f) = Ok mid.
Proof.
  unfold media_ids_of. destruct roll; [|discriminate]. intros H. split; [done|].
  unfold get_random_media_id in H.
  destruct (m_listing me) as [[listing|e]|]; [|discriminate|discriminate].
  destruct (filter (fun f => media_file f = true) listing) as [|f0 fs] eqn:F;
    [discriminate|].
  set (f := py_choice (m_pick me) (f0 :: fs)) in H.
  assert (f ∈ filter (fun f => media_file f = true) listing) as Hf.
  { rewrite F. apply list_elem_of_In, py_choice_in. discriminate. }
  apply list_elem_of_filter in Hf as [Hmf Hin].
  destruct (m_upload me (media_path f)) as [[|c s]|e] eqn:U; try discriminate.
  injection H as <-.
  exists listing, f, (String c s). repeat split; try done.
  by apply list_elem_of_In.
Qed.

Lemma media_ids_of_uploaded_witness :
  media_ids_of true media_env_board = Ok (Some ["1789"%string]) /\
  true = true /\
  exists listing f mid, ["1789"%string] = [mid] /\ mid <> EmptyString /\
    m_listing media_env_board = Some (Ok listing) /\
    In f listing /\ media_file f = true /\
    m_upload media_env_board (media_path f) = Ok mid.
Proof.
  assert (media_ids_of true media_env_board = Ok (Some ["1789"%string])) as H
    by (vm_compute; reflexivity).
  split; [exact H|].
  exact (media_ids_of_uploaded true _ _ H).
Defined.

(** X9: every hype post (any of the four phrases, any personality line)
    has at most 280 code points, so, unless the media lookup raises,
    [bot_hype_commentator] makes one v2 call with it unchanged. *)
Theorem bot_hype_commentator_post (a : api) (me : media_env) (phrase line : ustr)
    (roll : bool) (w : world) :
  In phrase hype_phrases -> In line personality_lines ->
  length (hype_msg phrase line) <= TWITTER_CHAR_LIMIT /\
  v2_calls (snd (bot_hype_commentator a me phrase line roll w)) =
    v2_calls w ++ match media_ids_of roll me with
                  | Ok mids => [mk_v2 (hype_msg phrase line) mids None]
                  | Exn _ => []
                  end.
Proof.
  intros Hp Hl.
  pose proof (forallb_length_le hype_phrases 72 phrase
                ltac:(vm_compute; reflexivity) Hp) as Lp.
  pose proof (forallb_length_le personality_lines 56 line
                ltac:(vm_compute; reflexivity) Hl) as Ll.
  assert (length (hype_msg phrase line) <= TWITTER_CHAR_LIMIT) as L.
  { unfold hype_msg. rewrite !length_app.
    assert (length (ud "🕹️ 9DTTT LIVE UPDATE 🕹️") = 23) as -> by (vm_compute; reflexivity).
    change (length nl2) with 2. change (length GAME_LINK) with 21.
    unfold TWITTER_CHAR_LIMIT. lia. }
  split; [done|].
  unfold bot_hype_commentator. cbv zeta. rewrite post_media_snd.
  destruct (media_ids_of roll me) as [mids|e] eqn:Em.
  - exact (safe_post_tweet_v2_short a _ mids w L (media_ids_of_truthy _ _ _ Em)).
  - by rewrite app_nil_r.
Qed.

Lemma bot_hype_commentator_post_witness :
  In (ud "Leaderboard shaking! New challengers rising fast.") hype_phrases /\
  In (ud "Prepare for defeat.") personality_lines /\
  length (hype_msg (ud "Leaderboard shaking! New challengers rising fast.")
                   (ud "Prepare for defeat.")) <= TWITTER_CHAR_LIMIT /\
  v2_calls (snd (bot_hype_commentator api_ok
                   media_env_board
                   (ud "Leaderboard shaking! New challengers rising fast.")
                   (ud "Prepare for defeat.") false (start_world true))) =
    [] ++ [mk_v2 (hype_msg (ud "Leaderboard shaking! New challengers rising fast.")
                           (ud "Prepare for defeat."))
                 None None].
Proof.
  assert (In (ud "Leaderboard shaking! New challengers rising fast.") hype_phrases) as Hp
    by (apply in_map; right; right; left; reflexivity).
  assert (In (ud "Prepare for defeat.") personality_lines) as Hl.
  { apply in_or_app. right. apply in_or_app. left.
    apply in_map. do 5 right. left. reflexivity. }
  split; [exact Hp|]. split; [exact Hl|].
  exact (bot_hype_commentator_post api_ok _ _ _ false (start_world true) Hp Hl).
Defined.

(** X10: the activation post has at most 280 code points whatever is
    drawn; the activation never raises and makes one v2 call with that
    text unchanged. *)
Theorem activation_post (a : api) (mot1 line mot3 : ustr) (i : nat) (mot4 : ustr)
    (w : world) :
  let t := activation_msg mot1 line mot3 i mot4 in
  length t <= TWITTER_CHAR_LIMIT /\
  fst (activation a mot1 line mot3 i mot4 w) = Ok tt /\
  v2_calls (snd (activation a mot1 line mot3 i mot4 w)) = v2_calls w ++ [mk_v2 t None None].
Proof.
  intros t.
  assert (length t <= TWITTER_CHAR_LIMIT) as L.
  { subst t. unfold activation_msg. cbv zeta.
    case_limit; [|lia].
    pose proof (py_slice_to_length mot4 100 ltac:(lia)) as Lm.
    rewrite !length_app.
    assert (length (ud "🎮 ") = 2) as -> by (vm_compute; reflexivity).
    assert (length (ud " ONLINE 🎮") = 9) as -> by (vm_compute; reflexivity).
    assert (length (ud "🕹️ ") = 3) as -> by (vm_compute; reflexivity).
    change (length BOT_NAME) with 9. change (length nl2) with 2.
    change (length (u "9D Grid Active")) with 14. change (length [10%N]) with 1.
    change (length GAME_LINK) with 21. simpl in Lm.
    unfold TWITTER_CHAR_LIMIT. lia. }
  split; [done|].
  pose proof (safe_post_tweet_v2_short a t None w L eq_refl) as V.
  simpl in V. unfold activation. fold t. run_monad.
  destruct (safe_post_tweet a t None None w) as [[[]|e] w1]; simpl in *; split; done.
Qed.

(** X11: what [save_json_set] writes, [load_json_set] reads back; when
    [open] fails, the load gives what it gave before the save; when the
    dump fails after [open(fn, 'w')] has emptied the file, the load
    raises [json.load]'s error. *)
Theorem save_then_load (o : save_outcome) (X : gset string) (w : world) :
  fst ((save_json_set o X;; load_json_set) w) =
  match o with
  | SaveDone => Ok X
  | SaveOpenFails => read_file (mentions_file w)
  | SaveDumpFails => Exn JSONDecodeError
  end.
Proof.
  destruct o; unfold save_json_set, load_json_set; run_monad; simpl.
  - by rewrite list_to_set_elements_L.
  - reflexivity.
  - reflexivity.
Qed.

(** X12: [safe_post_tweet] sends a text of at most 280 code points to the
    v2 endpoint unchanged, with the media ids and reply target it was
    given (when truthy); it makes exactly one v2 call. *)
Theorem safe_post_tweet_short_unchanged (a : api) (text : ustr)
    (media_ids : option (list string)) (in_reply_to_tweet_id : option N) (w : world) :
  length text <= TWITTER_CHAR_LIMIT ->
  v2_calls (snd (safe_post_tweet a text media_ids in_reply_to_tweet_id w)) =
  v2_calls w ++ [v2_args text media_ids in_reply_to_tweet_id].
Proof.
  intros H. by rewrite safe_post_tweet_v2_log, truncate_text_short.
Qed.

Lemma safe_post_tweet_short_unchanged_witness :
  length (u "GG @ada, rematch?") <= TWITTER_CHAR_LIMIT /\
  v2_calls (snd (safe_post_tweet api_ok (u "GG @ada, rematch?") None (Some 101%N)
                   (start_world true))) =
  [] ++ [v2_args (u "GG @ada, rematch?") None (Some 101%N)].
Proof.
  assert (length (u "GG @ada, rematch?") <= TWITTER_CHAR_LIMIT) as H
    by (vm_compute; lia).
  split; [exact H|].
  exact (safe_post_tweet_short_unchanged api_ok _ None (Some 101%N) (start_world true) H).
Defined.
